(** * Documentation linters of Planar.jl: heading hierarchy and markdown complexity

    A shallow embedding of [scripts/validation/heading_hierarchy.py] and
    [scripts/validation/markdown_complexity.py].

    - Python [str] values are lists of Unicode code points ([N]).
    - The five regular expressions of the two scripts are written in a small
      regex syntax and run by a backtracking matcher that follows the
      semantics of Python's [re] module for that fragment ([re.MULTILINE]
      anchors, greedy and lazy repetition of a character class, capturing
      groups, the left-to-right scan of [re.findall]).
    - Python floats are IEEE binary64 values ([SpecFloat.spec_float]).
    - The directory tree under [docs] is an inductive type; reading a file
      may raise, which is modelled by a result type. *)

From Stdlib Require Import List NArith ZArith Arith Bool Lia String Ascii.
From Stdlib Require Import Floats.SpecFloat.
Import ListNotations.

(* ===================================================================== *)
(** ** Python strings *)
(* ===================================================================== *)

Module Py.

(** A [str] is a sequence of code points. *)
Definition str := list N.

(** An ASCII literal of the source. *)
Definition lit (s : string) : str :=
  map N_of_ascii (list_ascii_of_string s).

Definition NL : N := 10%N.

(** [str.isspace] on one code point, which is also what [\s] matches in a
    [str] pattern: the Unicode white space characters. *)
Definition isspace (c : N) : bool :=
  ((9 <=? c) && (c <=? 13) || (28 <=? c) && (c <=? 32)
   || (c =? 133) || (c =? 160) || (c =? 5760)
   || (8192 <=? c) && (c <=? 8202)
   || (c =? 8232) || (c =? 8233) || (c =? 8239) || (c =? 8287)
   || (c =? 12288))%N.

(** [s.startswith(p)] *)
Fixpoint startswith (s p : str) : bool :=
  match p, s with
  | [], _ => true
  | y :: p', x :: s' => (x =? y)%N && startswith s' p'
  | _ :: _, [] => false
  end.

(** [s.endswith(p)] *)
Definition endswith (s p : str) : bool :=
  startswith (rev s) (rev p).

(** Decimal digits of a natural number, as [str(n)] and [f"{n}"] print it. *)
Fixpoint uint_str (d : Decimal.uint) : str :=
  match d with
  | Decimal.Nil => []
  | Decimal.D0 d => 48%N :: uint_str d
  | Decimal.D1 d => 49%N :: uint_str d
  | Decimal.D2 d => 50%N :: uint_str d
  | Decimal.D3 d => 51%N :: uint_str d
  | Decimal.D4 d => 52%N :: uint_str d
  | Decimal.D5 d => 53%N :: uint_str d
  | Decimal.D6 d => 54%N :: uint_str d
  | Decimal.D7 d => 55%N :: uint_str d
  | Decimal.D8 d => 56%N :: uint_str d
  | Decimal.D9 d => 57%N :: uint_str d
  end.

Definition str_of_N (n : N) : str := uint_str (N.to_uint n).
Definition str_of_nat (n : nat) : str := uint_str (Nat.to_uint n).

End Py.

Import Py.

(* ===================================================================== *)
(** ** The fragment of Python's [re] used by the scripts *)
(* ===================================================================== *)

Module Re.

(** A character class is its membership test. *)
Definition cls := N -> bool.

Inductive atom : Type :=
| Bol                                   (** [^] under [re.MULTILINE] *)
| Eol                                   (** [$] under [re.MULTILINE] *)
| Chr (c : cls)                         (** one character of a class *)
| Rep (c : cls) (lo : nat) (hi : option nat) (greedy : bool).
                                        (** [c{lo,hi}], or [c{lo,hi}?] *)

(** An atom, possibly wrapped in a capturing group. *)
Inductive node : Type :=
| Plain (a : atom)
| Capture (a : atom).

Definition regex := list node.

(** Character classes of the patterns. *)
Definition only (x : N) : cls := fun c => (c =? x)%N.
Definition dot : cls := fun c => negb (c =? NL)%N.   (* [.] without DOTALL *)
Definition space : cls := isspace.                    (* [\s] *)

Definition star c := Rep c 0 None true.
Definition plus c := Rep c 1 None true.
Definition lazy_star c := Rep c 0 None false.

(** Length of the longest prefix of [s] made of characters of [c]. *)
Fixpoint run (c : cls) (s : str) : nat :=
  match s with
  | x :: t => if c x then S (run c t) else 0
  | [] => 0
  end.

Definition cap (hi : option nat) (n : nat) : nat :=
  match hi with
  | Some h => Nat.min h n
  | None => n
  end.

(** The first success among [f (lo+d)], [f (lo+d-1)], ..., [f lo]: a greedy
    repetition gives characters back one at a time. *)
Fixpoint first_down {A} (f : nat -> option A) (lo d : nat) : option A :=
  match f (lo + d) with
  | Some x => Some x
  | None =>
      match d with
      | 0 => None
      | S d' => first_down f lo d'
      end
  end.

(** The first success among [f lo], [f (lo+1)], ..., [f (lo+d)]: a lazy
    repetition takes one more character at a time. *)
Fixpoint first_up {A} (f : nat -> option A) (lo d : nat) : option A :=
  match f lo with
  | Some x => Some x
  | None =>
      match d with
      | 0 => None
      | S d' => first_up f (S lo) d'
      end
  end.

(** [^] matches at the start of the text and after each line break; [$]
    at the end of the text and before each line break. [prev] is the
    character before the current position. *)
Definition at_bol (prev : option N) : bool :=
  match prev with
  | None => true
  | Some c => (c =? NL)%N
  end.

Definition at_eol (s : str) : bool :=
  match s with
  | [] => true
  | c :: _ => (c =? NL)%N
  end.

Definition prev_after (prev : option N) (k : nat) (s : str) : option N :=
  match k with
  | 0 => prev
  | S j => nth_error s j
  end.

Definition advance (k : nat) (r : option (nat * list str))
  : option (nat * list str) :=
  match r with
  | Some (n, g) => Some (k + n, g)
  | None => None
  end.

(** [exec r prev s need gs]: match [r] at the head of [s], backtracking.
    The result is the number of characters matched and the captured groups.
    [need] asks for a non-empty match (the matcher's "must advance" flag);
    [gs] holds the groups closed so far, last first. *)
Fixpoint exec (r : regex) (prev : option N) (s : str) (need : bool)
         (gs : list str) {struct r} : option (nat * list str) :=
  match r with
  | [] => if need then None else Some (0, rev gs)
  | nd :: rest =>
      let a := match nd with Plain a => a | Capture a => a end in
      let keep := match nd with Plain _ => false | Capture _ => true end in
      let next k :=
        advance k
          (exec rest (prev_after prev k s) (skipn k s)
                (need && (k =? 0))
                (if keep then firstn k s :: gs else gs)) in
      match a with
      | Bol => if at_bol prev then next 0 else None
      | Eol => if at_eol s then next 0 else None
      | Chr c =>
          match s with
          | x :: _ => if c x then next 1 else None
          | [] => None
          end
      | Rep c lo hi greedy =>
          let n := cap hi (run c s) in
          if n <? lo then None
          else (if greedy then @first_down _ else @first_up _) next lo (n - lo)
      end
  end.

(** One match: the matched text and its groups. *)
Record hit : Type := Hit { whole : str; groups : list str }.

Definition hit_at (s : str) (m : nat * list str) : hit :=
  Hit (firstn (fst m) s) (snd m).

(** The scan of [re.finditer]: the leftmost match from the current
    position, then on from its end. [skip] counts the characters still
    covered by the last match. After an empty match the same position is
    tried again for a non-empty one. *)
Fixpoint scan (r : regex) (prev : option N) (skip : nat) (s : str)
  : list hit :=
  match s with
  | [] =>
      match skip with
      | 0 =>
          match exec r prev [] false [] with
          | Some m => [hit_at [] m]
          | None => []
          end
      | S _ => []
      end
  | x :: t =>
      match skip with
      | S k => scan r (Some x) k t
      | 0 =>
          match exec r prev s false [] with
          | Some (0, g) =>
              Hit [] g ::
              match exec r prev s true [] with
              | Some (n, g') =>
                  Hit (firstn n s) g' :: scan r (Some x) (pred n) t
              | None => scan r (Some x) 0 t
              end
          | Some (S n, g) => Hit (firstn (S n) s) g :: scan r (Some x) n t
          | None => scan r (Some x) 0 t
          end
      end
  end.

Definition finditer (r : regex) (s : str) : list hit := scan r None 0 s.

(** [re.findall] for a pattern without groups: the matched texts. *)
Definition findall0 (r : regex) (s : str) : list str :=
  map whole (finditer r s).

(** [re.findall] for a pattern with two groups: the pairs of groups. *)
Definition findall2 (r : regex) (s : str) : list (str * str) :=
  map (fun h => (nth 0 (groups h) [], nth 1 (groups h) [])) (finditer r s).

(** *** Notions used to state facts about the matcher *)

Definition atom_of (nd : node) : atom :=
  match nd with Plain a => a | Capture a => a end.

Definition keeps (nd : node) : bool :=
  match nd with Plain _ => false | Capture _ => true end.

(** What follows an atom that took [k] characters. *)
Definition cont (nd : node) (rest : regex) (prev : option N) (s : str)
           (need : bool) (gs : list str) (k : nat) : option (nat * list str) :=
  advance k
    (exec rest (prev_after prev k s) (skipn k s) (need && (k =? 0))
          (if keeps nd then firstn k s :: gs else gs)).

(** The least number of characters a pattern matches. *)
Definition min_len (r : regex) : nat :=
  fold_right
    (fun nd acc =>
       match atom_of nd with
       | Bol | Eol => acc
       | Chr _ => 1 + acc
       | Rep _ lo _ _ => lo + acc
       end) 0 r.

(** The characters some class of the pattern takes. *)
Definition accepts (r : regex) (ch : N) : bool :=
  existsb
    (fun nd =>
       match atom_of nd with
       | Bol | Eol => false
       | Chr c => c ch
       | Rep c _ _ _ => c ch
       end) r.

End Re.

Import Re.

(* ===================================================================== *)
(** ** Files, directories and the outcome of a script *)
(* ===================================================================== *)

Module Fs.

(** An entry of a directory. The data of a file is the text that
    [f.read()] returns for it (decoded as UTF-8, line ends translated to
    a line feed), or [None] when opening or decoding it raises ([OSError],
    [UnicodeDecodeError]). *)
#[warnings="-register-all"]
Inductive entry : Type :=
| File (name : str) (data : option str)
| Dir (name : str) (children : list entry).

(** Induction on a directory tree. *)
Fixpoint entry_rect' (P : entry -> Prop)
    (HF : forall n d, P (File n d))
    (HD : forall n children, Forall P children -> P (Dir n children))
    (e : entry) {struct e} : P e :=
  match e with
  | File n d => HF n d
  | Dir n children =>
      HD n children
         ((fix all (l : list entry) : Forall P l :=
             match l with
             | [] => Forall_nil P
             | x :: t => Forall_cons x (entry_rect' P HF HD x) (all t)
             end) children)
  end.

(** [os.path.join(a, b)] of [posixpath]. *)
Definition join (a b : str) : str :=
  if startswith b (lit "/") then b
  else if (match a with [] => true | _ => false end) || endswith a (lit "/")
       then a ++ b
       else a ++ lit "/" ++ b.

(** The non-directory entries of a listing, in listing order. *)
Fixpoint files_of (l : list entry) : list (str * option str) :=
  match l with
  | [] => []
  | File n d :: t => (n, d) :: files_of t
  | Dir _ _ :: t => files_of t
  end.

(** [os.walk(top)], top-down: a directory yields its own listing, then the
    listings of its sub-directories, each walked the same way. An item is
    [root] with the files of [root]; the scripts never look at [dirs]. *)
Fixpoint walk_entry (parent : str) (e : entry)
  : list (str * list (str * option str)) :=
  match e with
  | File _ _ => []
  | Dir n children =>
      let top := join parent n in
      (top, files_of children) :: flat_map (walk_entry top) children
  end.

Definition walk (top : str) (listing : list entry)
  : list (str * list (str * option str)) :=
  (top, files_of listing) :: flat_map (walk_entry top) listing.

(** The two loops over [os.walk('docs')] with the test on the extension:
    the path and the data of every file the scripts open, in order. *)
Definition selected (docs : list entry) : list (str * option str) :=
  flat_map
    (fun item =>
       let root := fst item in
       flat_map
         (fun file =>
            if endswith (fst file) (lit ".md")
            then [(join root (fst file), snd file)]
            else [])
         (snd item))
    (walk (lit "docs") docs).

(** A computation that may raise. *)
Inductive result (A : Type) : Type :=
| Ok (a : A)
| Raise.
Arguments Ok {A} a.
Arguments Raise {A}.

Definition bind {A B} (m : result A) (k : A -> result B) : result B :=
  match m with
  | Ok a => k a
  | Raise => Raise
  end.

Notation "x <- m ;; k" := (bind m (fun x => k))
  (at level 61, m at next level, right associativity).

(** [with open(file_path, 'r', encoding='utf-8') as f: content = f.read()] *)
Definition read (data : option str) : result str :=
  match data with
  | Some content => Ok content
  | None => Raise
  end.

(** A [for] loop whose body may raise. *)
Fixpoint for_each {A S} (l : list A) (body : S -> A -> result S) (s : S)
  : result S :=
  match l with
  | [] => Ok s
  | x :: t => s' <- body s x ;; for_each t body s'
  end.

(** How a script ends: it printed [stdout] and called [exit(code)], or an
    exception escaped. *)
Inductive outcome : Type :=
| Exit (stdout : list str) (code : Z)
| Uncaught.

End Fs.

Import Fs.

(* ===================================================================== *)
(** ** scripts/validation/heading_hierarchy.py *)
(* ===================================================================== *)

Module HeadingHierarchy.

(** [r'^(#{1,6})\s+(.+)$'] with [re.MULTILINE] *)
Definition heading_re : regex :=
  [Plain Bol; Capture (Rep (only 35) 1 (Some 6) true); Plain (plus space);
   Capture (plus dot); Plain Eol].

(** [f"Heading level jump: H{prev_level} to H{level} - '{title}'"] *)
Definition issue_text (prev_level level : nat) (title : str) : str :=
  lit "Heading level jump: H" ++ str_of_nat prev_level ++ lit " to H"
  ++ str_of_nat level ++ lit " - '" ++ title ++ lit "'".

(** The body of the loop over [headings], on the pair
    [(prev_level, issues)]. *)
Definition step (st : nat * list str) (heading_match : str * str)
  : nat * list str :=
  let prev_level := fst st in
  let issues := snd st in
  let level := List.length (fst heading_match) in
  let title := snd heading_match in
  let issues :=
    if (0 <? prev_level) && (prev_level + 1 <? level)
    then issues ++ [issue_text prev_level level title]
    else issues in
  (level, issues).

(** [check_heading_hierarchy], from the text read from [file_path]. *)
Definition check_content (content : str) : list str :=
  let headings := findall2 heading_re content in
  snd (fold_left step headings (0, [])).

Definition check_heading_hierarchy (data : option str) : result (list str) :=
  content <- read data ;; Ok (check_content content).

(** The loop of [__main__]: [all_issues] after all files. *)
Definition collect (docs : list entry) : result (list str) :=
  for_each (selected docs)
    (fun all_issues file =>
       let file_path := fst file in
       issues <- check_heading_hierarchy (snd file) ;;
       Ok (all_issues
           ++ map (fun issue => file_path ++ lit ": " ++ issue) issues))
    [].

Definition cross : str := [10060%N].   (* U+274C *)
Definition tick : str := [9989%N].     (* U+2705 *)

(** The report: what is printed, and the exit code. *)
Definition report (all_issues : list str) : outcome :=
  match all_issues with
  | _ :: _ =>
      Exit ((cross ++ lit " Heading hierarchy issues found:")
            :: map (fun issue => lit "  - " ++ issue) all_issues) 1
  | [] => Exit [tick ++ lit " All heading hierarchies are correct"] 0
  end.

Definition main (docs : list entry) : outcome :=
  match collect docs with
  | Ok all_issues => report all_issues
  | Raise => Uncaught
  end.

End HeadingHierarchy.

(* ===================================================================== *)
(** ** Python floats *)
(* ===================================================================== *)

Module PyFloat.

(** A [float] is an IEEE binary64 value; arithmetic rounds to nearest,
    ties to even. *)
Definition float := spec_float.
Definition prec : Z := 53.
Definition emax : Z := 1024.

Definition of_nat (n : nat) : float :=
  binary_normalize prec emax (Z.of_nat n) 0 false.

Definition add : float -> float -> float := SFadd prec emax.
Definition mul : float -> float -> float := SFmul prec emax.
Definition gtb (x y : float) : bool := SFltb y x.

(** The literals [0.5] and [0.3]. *)
Definition half : float := S754_finite false 4503599627370496 (-53).
Definition three_tenths : float := S754_finite false 5404319552844595 (-54).

(** The exact value times ten, rounded to an integer, ties to even. *)
Definition tenths (m : positive) (e : Z) : Z :=
  let n := (10 * Zpos m)%Z in
  if (0 <=? e)%Z then (n * 2 ^ e)%Z
  else
    let d := (2 ^ (- e))%Z in
    let q := (n / d)%Z in
    let r := (n mod d)%Z in
    match (2 * r ?= d)%Z with
    | Lt => q
    | Gt => (q + 1)%Z
    | Eq => if Z.even q then q else (q + 1)%Z
    end.

(** [f"{x:.1f}"] *)
Definition format_1f (x : float) : str :=
  match x with
  | S754_zero s => (if s then lit "-" else []) ++ lit "0.0"
  | S754_infinity s => (if s then lit "-" else []) ++ lit "inf"
  | S754_nan => lit "nan"
  | S754_finite s m e =>
      let t := Z.to_N (tenths m e) in
      (if s then lit "-" else [])
      ++ str_of_N (t / 10) ++ lit "." ++ str_of_N (t mod 10)
  end.

End PyFloat.

(* ===================================================================== *)
(** ** scripts/validation/markdown_complexity.py *)
(* ===================================================================== *)

Module MarkdownComplexity.

Import PyFloat.

(** [r'^#{1,6}'] with [re.MULTILINE] *)
Definition heading_re : regex :=
  [Plain Bol; Plain (Rep (only 35) 1 (Some 6) true)].

(** [r'\[.*?\]\(.*?\)'] *)
Definition link_re : regex :=
  [Plain (Chr (only 91)); Plain (lazy_star dot); Plain (Chr (only 93));
   Plain (Chr (only 40)); Plain (lazy_star dot); Plain (Chr (only 41))].

(** [r'```'] *)
Definition fence_re : regex :=
  [Plain (Chr (only 96)); Plain (Chr (only 96)); Plain (Chr (only 96))].

(** [[-*+]] *)
Definition marker : cls :=
  fun c => ((c =? 45) || (c =? 42) || (c =? 43))%N.

(** [r'^\s*[-*+]\s'] with [re.MULTILINE] *)
Definition list_re : regex :=
  [Plain Bol; Plain (star space); Plain (Chr marker); Plain (Chr space)].

(** The dictionary that [analyze_complexity] returns. *)
Record stats : Type := Stats {
  headings : nat;
  links : nat;
  code_blocks : nat;
  lists : nat;
  complexity : float
}.

(** [headings + (links * 0.5) + (code_blocks * 2) + (lists * 0.3)]: an
    [int] meeting a [float] is converted first; [code_blocks * 2] is a
    product of integers. *)
Definition score (headings links code_blocks lists : nat) : float :=
  add (add (add (of_nat headings) (mul (of_nat links) half))
           (of_nat (code_blocks * 2)))
      (mul (of_nat lists) three_tenths).

(** [analyze_complexity], from the text read from [file_path]. *)
Definition analyze_content (content : str) : stats :=
  let headings := List.length (findall0 heading_re content) in
  let links := List.length (findall0 link_re content) in
  let code_blocks := List.length (findall0 fence_re content) / 2 in
  let lists := List.length (findall0 list_re content) in
  let complexity := score headings links code_blocks lists in
  Stats headings links code_blocks lists complexity.

Definition analyze_complexity (data : option str) : result stats :=
  content <- read data ;; Ok (analyze_content content).

(** [stats['complexity'] > 50] *)
Definition is_high (st : stats) : bool :=
  gtb (complexity st) (of_nat 50).

(** The loop of [__main__]: [high_complexity_files] after all files. *)
Definition collect (docs : list entry) : result (list (str * stats)) :=
  for_each (selected docs)
    (fun high_complexity_files file =>
       let file_path := fst file in
       st <- analyze_complexity (snd file) ;;
       Ok (if is_high st
           then high_complexity_files ++ [(file_path, st)]
           else high_complexity_files))
    [].

Definition cross : str := [10060%N].   (* U+274C *)
Definition tick : str := [9989%N].     (* U+2705 *)

(** The report: what is printed, and the exit code. *)
Definition report (high_complexity_files : list (str * stats)) : outcome :=
  match high_complexity_files with
  | _ :: _ =>
      Exit ((cross ++ lit " High complexity files detected:")
            :: map (fun item =>
                      lit "  - " ++ fst item ++ lit ": complexity="
                      ++ format_1f (complexity (snd item)))
                   high_complexity_files) 1
  | [] => Exit [tick ++ lit " All files have reasonable complexity"] 0
  end.

Definition main (docs : list entry) : outcome :=
  match collect docs with
  | Ok high_complexity_files => report high_complexity_files
  | Raise => Uncaught
  end.

End MarkdownComplexity.

(* ===================================================================== *)
(** ** The properties, as the specification words them *)
(* ===================================================================== *)

Module Spec.

Definition level (h : str * str) : nat := List.length (fst h).

(** Level jumps: every heading after the first is compared with the heading
    just before it, and reported when it lies more than one level deeper. *)
Fixpoint jumps (hs : list (str * str)) : list str :=
  match hs with
  | [] => []
  | a :: t =>
      match t with
      | [] => []
      | b :: _ =>
          (if level a + 1 <? level b
           then [HeadingHierarchy.issue_text (level a) (level b) (snd b)]
           else [])
          ++ jumps t
      end
  end.

(** No heading lies more than one level below the heading just before
    it. *)
Fixpoint gentle (hs : list (str * str)) : bool :=
  match hs with
  | [] => true
  | a :: t =>
      match t with
      | [] => true
      | b :: _ => (level b <=? level a + 1) && gentle t
      end
  end.

(** The triple-backtick occurrences of a text, counted from left to right
    without overlap, as [str.count] does. *)
Fixpoint occurrences (s : str) : nat :=
  match s with
  | [] => 0
  | a :: t =>
      match t with
      | b :: c :: t' =>
          if ((a =? 96) && (b =? 96) && (c =? 96))%N
          then S (occurrences t')
          else occurrences t
      | _ => 0
      end
  end.

(** The lines of a text, each with its line break when it has one. *)
Fixpoint lines (s : str) : list str :=
  match s with
  | [] => []
  | x :: t =>
      if (x =? NL)%N then [x] :: lines t
      else
        match lines t with
        | [] => [[x]]
        | l :: ls => (x :: l) :: ls
        end
  end.

(** A text without its leading white space. *)
Fixpoint lstrip (s : str) : str :=
  match s with
  | [] => []
  | x :: t => if isspace x then lstrip t else s
  end.

(** The line, leading white space ignored, starts with [-], [*] or [+]
    followed by a character of [after]. *)
Definition item_line (after : cls) (l : str) : bool :=
  match lstrip l with
  | m :: c :: _ => MarkdownComplexity.marker m && after c
  | _ => false
  end.

Definition count_item_lines (after : cls) (s : str) : nat :=
  List.length (filter (item_line after) (lines s)).

(** [located top listing root name data]: under the directory [top] with
    the given listing, at any depth, the directory [root] holds the file
    [name]. *)
Inductive located : str -> list entry -> str -> str -> option str -> Prop :=
| located_here top listing name data :
    In (File name data) listing ->
    located top listing top name data
| located_below top listing sub children root name data :
    In (Dir sub children) listing ->
    located (join top sub) children root name data ->
    located top listing root name data.

(** All selected files could be read: their paths and texts. *)
Definition texts_of (files : list (str * str)) : list (str * option str) :=
  map (fun f => (fst f, Some (snd f))) files.

(** The contribution of one readable file to each script's result. *)
Definition issues_of (f : str * str) : list str :=
  map (fun issue => fst f ++ lit ": " ++ issue)
      (HeadingHierarchy.check_content (snd f)).

Definition high_of (f : str * str) : list (str * MarkdownComplexity.stats) :=
  let st := MarkdownComplexity.analyze_content (snd f) in
  if MarkdownComplexity.is_high st then [(fst f, st)] else [].

(** [k] hash characters. *)
Definition hashes (k : nat) : str := repeat 35%N k.

(** Item lines as the analyzer counts them: the marker is followed by
    white space. *)
Definition item : str -> bool := item_line space.
Definition cnt (l : list str) : nat := List.length (filter item l).

End Spec.

(* ===================================================================== *)
(** ** Sample documents and trees *)
(* ===================================================================== *)

Module Samples.

(** Four headings, of levels 2, 4, 4 and 1. *)
Definition levels_2441 : str :=
  lit "## a
#### b
#### c
# d
".

(** [n] heading lines and nothing else. *)
Definition heading_lines (n : nat) : str :=
  List.concat (repeat (lit "# h
") n).

(** Three code fences. *)
Definition three_fences : str :=
  lit "```
a
```
```
".

(** A marker followed by a tab. *)
Definition tab_item : str := lit "-" ++ [9%N] ++ lit "x".

(** A level-one heading, then a line of three hashes alone, then text. *)
Definition lone_hashes : str :=
  lit "# A
###
B
".

(** A tree with a nested markdown file, a text file and a large file. *)
Definition tree : list entry :=
  [File (lit "index.md") (Some levels_2441);
   File (lit "notes.txt") (Some (lit "# a
### b"));
   Dir (lit "guides")
       [Dir (lit "deep") [File (lit "big.md") (Some (heading_lines 60))];
        File (lit "ten.md") (Some (heading_lines 10))]].

End Samples.

(* ===================================================================== *)
(** ** Further notions: lines, trees and exact scores *)
(* ===================================================================== *)

Module Notions.

Import PyFloat.

(** The line starts with a hash. *)
Definition starts_hash (l : str) : bool :=
  match l with
  | x :: _ => (x =? 35)%N
  | [] => false
  end.

(** How many of the lines start with a hash. *)
Definition cnth (l : list str) : nat := List.length (filter starts_hash l).

(** The lines of a text that start with a hash. *)
Definition count_hash_lines (s : str) : nat := cnth (Spec.lines s).

(** Lines that start with a hash among those a scan can still reach: all
    lines when it stands at the start of a line, the lines after the
    current one otherwise. *)
Definition hash_lines_ahead (prev : option N) (s : str) : nat :=
  if at_bol prev then cnth (Spec.lines s) else cnth (tl (Spec.lines s)).

(** The pattern cannot match without a character of the class [c]: it
    holds [c] itself or a repetition of [c] of at least one. *)
Definition demands (r : regex) (c : cls) : Prop :=
  exists nd, In nd r /\
    (atom_of nd = Chr c \/
     exists lo hi greedy, atom_of nd = Rep c lo hi greedy /\ 1 <= lo).

(** No name of the tree starts with a slash. *)
Fixpoint plain (e : entry) : bool :=
  match e with
  | File n _ => negb (startswith n (lit "/"))
  | Dir n children => negb (startswith n (lit "/")) && forallb plain children
  end.

(** The markdown files of a tree, counted at every depth. *)
Fixpoint count_md (e : entry) : nat :=
  match e with
  | File n _ => if endswith n (lit ".md") then 1 else 0
  | Dir _ children => list_sum (map count_md children)
  end.

(** The tree without its files of another extension. *)
Fixpoint prune (e : entry) : list entry :=
  match e with
  | File n _ => if endswith n (lit ".md") then [e] else []
  | Dir n children => [Dir n (flat_map prune children)]
  end.

(** The files that the loops select among the items of a walk. *)
Definition select (items : list (str * list (str * option str)))
  : list (str * option str) :=
  flat_map
    (fun item =>
       let root := fst item in
       flat_map
         (fun file =>
            if endswith (fst file) (lit ".md")
            then [(join root (fst file), snd file)]
            else [])
         (snd item))
    items.

(** The markdown files among the files of one directory. *)
Definition md_in (files : list (str * option str)) : nat :=
  List.length (filter (fun f => endswith (fst f) (lit ".md")) files).

(** Below [docs]: the directory itself or a path that starts with
    [docs/]. *)
Definition below_docs (top : str) : Prop :=
  top = lit "docs" \/ startswith top (lit "docs/") = true.

(** The same floating-point datum. *)
Definition same (x y : float) : bool :=
  match x, y with
  | S754_zero s, S754_zero s' => Bool.eqb s s'
  | S754_infinity s, S754_infinity s' => Bool.eqb s s'
  | S754_nan, S754_nan => true
  | S754_finite s m e, S754_finite s' m' e' =>
      Bool.eqb s s' && (m =? m')%positive && (e =? e')%Z
  | _, _ => false
  end.

(** [a] halves, as a float. *)
Definition halves (a : nat) : float := mul (of_nat a) half.

Definition upto (n : nat) : list nat := seq 0 (S n).

(** Headings and links add up without rounding. *)
Definition halves_cell (x : float) (h l : nat) : bool :=
  same (add x (halves l)) (halves (2 * h + l)).

Definition halves_row (lmax h : nat) : bool :=
  forallb (halves_cell (of_nat h) h) (upto lmax).

(** So do the fence pairs on top of them. *)
Definition pairs_cell (y : float) (c a : nat) : bool :=
  same (add (halves a) y) (halves (a + 4 * c)).

Definition pairs_row (amax c : nat) : bool :=
  forallb (pairs_cell (of_nat (c * 2)) c) (upto amax).

(** With the list items added, the comparison with 50 is that of the
    exact tenths. *)
Definition threshold_cell (p : float) (i a : nat) : bool :=
  Bool.eqb (gtb (add (halves a) p) (of_nat 50)) (500 <? 5 * a + 3 * i).

Definition threshold_row (amax i : nat) : bool :=
  forallb (threshold_cell (mul (of_nat i) three_tenths) i) (upto amax).

(** A selected file can be read and has no level jump. *)
Definition sound_headings (f : str * option str) : Prop :=
  exists content,
    snd f = Some content /\
    Spec.gentle (findall2 HeadingHierarchy.heading_re content) = true.

(** A selected file can be read and is not above the threshold. *)
Definition moderate (f : str * option str) : Prop :=
  exists content,
    snd f = Some content /\
    MarkdownComplexity.is_high (MarkdownComplexity.analyze_content content)
    = false.

End Notions.

(* ===================================================================== *)
(** ** The process: exit status and standard output *)
(* ===================================================================== *)

Module Process.

(** The exit status of the process: the code given to [exit], or 1 when
    an exception leaves the script, which makes the interpreter print the
    traceback on the standard error and end with status 1. *)
Definition exit_status (o : outcome) : Z :=
  match o with
  | Exit _ code => code
  | Uncaught => 1%Z
  end.

(** What the run wrote on the standard output; the scripts print only in
    their report, after the loops. *)
Definition stdout_of (o : outcome) : list str :=
  match o with
  | Exit out _ => out
  | Uncaught => []
  end.

(** The value of the variable of a loop when the loop is over, by the end
    of its items or by an exception that leaves it. *)
Fixpoint reached {A S} (l : list A) (body : S -> A -> result S) (s : S) : S :=
  match l with
  | [] => s
  | x :: t =>
      match body s x with
      | Ok s' => reached t body s'
      | Raise => s
      end
  end.

(** [all_issues] when the run of the heading checker is over. *)
Definition all_issues_at_end (docs : list entry) : list str :=
  reached (selected docs)
    (fun all_issues file =>
       let file_path := fst file in
       issues <- HeadingHierarchy.check_heading_hierarchy (snd file) ;;
       Ok (all_issues
           ++ map (fun issue => file_path ++ lit ": " ++ issue) issues))
    [].

(** [high_complexity_files] when the run of the analyzer is over. *)
Definition high_complexity_files_at_end (docs : list entry)
  : list (str * MarkdownComplexity.stats) :=
  reached (selected docs)
    (fun high_complexity_files file =>
       let file_path := fst file in
       st <- MarkdownComplexity.analyze_complexity (snd file) ;;
       Ok (if MarkdownComplexity.is_high st
           then high_complexity_files ++ [(file_path, st)]
           else high_complexity_files))
    [].

(** A tree whose only file cannot be read. *)
Definition unreadable_tree : list entry := [File (lit "bad.md") None].

End Process.

(* ===================================================================== *)
(** ** Facts about the matcher *)
(* ===================================================================== *)

Module ReFacts.

Lemma first_down_inv A (f : nat -> option A) lo d x :
  first_down f lo d = Some x ->
  exists k, lo <= k <= lo + d /\ f k = Some x.
Proof.
  induction d as [|d IH]; simpl.
  - destruct (f (lo + 0)) eqn:E; [|discriminate].
    intros H; inversion H; subst. exists (lo + 0). split; [lia|exact E].
  - destruct (f (lo + S d)) eqn:E.
    + intros H; inversion H; subst. exists (lo + S d). split; [lia|exact E].
    + intros H. destruct (IH H) as (k & Hk & Hf). exists k. split; [lia|exact Hf].
Qed.

Lemma first_down_first A (f : nat -> option A) lo d x :
  f (lo + d) = Some x -> first_down f lo d = Some x.
Proof. intros H. destruct d; simpl; rewrite H; reflexivity. Qed.

Lemma first_down_none A (f : nat -> option A) lo d :
  (forall k, lo <= k <= lo + d -> f k = None) -> first_down f lo d = None.
Proof.
  induction d as [|d IH]; intros H; simpl.
  - rewrite H by lia. reflexivity.
  - rewrite H by lia. apply IH. intros k Hk. apply H. lia.
Qed.

Lemma first_up_inv A (f : nat -> option A) d : forall lo x,
  first_up f lo d = Some x ->
  exists k, lo <= k <= lo + d /\ f k = Some x.
Proof.
  induction d as [|d IH]; intros lo x; simpl.
  - destruct (f lo) eqn:E; [|discriminate].
    intros H; inversion H; subst. exists lo. split; [lia|exact E].
  - destruct (f lo) eqn:E.
    + intros H; inversion H; subst. exists lo. split; [lia|exact E].
    + intros H. destruct (IH _ _ H) as (k & Hk & Hf).
      exists k. split; [lia|exact Hf].
Qed.

Lemma run_le c s : run c s <= List.length s.
Proof. induction s as [|x t IH]; simpl; [lia|]. destruct (c x); simpl; lia. Qed.

Lemma run_firstn c : forall s k,
  k <= run c s -> Forall (fun x => c x = true) (firstn k s).
Proof.
  induction s as [|x t IH]; intros k Hk; simpl in *.
  - rewrite firstn_nil. constructor.
  - destruct k as [|k]; simpl; [constructor|].
    destruct (c x) eqn:E; [|lia].
    constructor; [exact E|]. apply IH. lia.
Qed.

Lemma run_skipn c : forall s k,
  k < run c s -> exists x t, skipn k s = x :: t /\ c x = true.
Proof.
  induction s as [|x t IH]; intros k Hk; simpl in *; [lia|].
  destruct (c x) eqn:E; [|lia].
  destruct k as [|k]; simpl.
  - exists x, t. split; [reflexivity|exact E].
  - apply IH. lia.
Qed.

Lemma cap_le hi n : cap hi n <= n.
Proof. destruct hi; simpl; lia. Qed.

Lemma firstn_plus (s : str) : forall k n,
  firstn (k + n) s = firstn k s ++ firstn n (skipn k s).
Proof.
  induction s as [|x t IH]; intros k n.
  - rewrite skipn_nil, !firstn_nil. reflexivity.
  - destruct k as [|k]; simpl; [reflexivity|]. rewrite IH. reflexivity.
Qed.

Lemma advance_0 r : advance 0 r = r.
Proof. destruct r as [[n g]|]; reflexivity. Qed.

Lemma advance_some k r n g :
  r = Some (n, g) -> advance k r = Some (k + n, g).
Proof. intros ->. reflexivity. Qed.

Lemma exec_cons nd rest prev s need gs :
  exec (nd :: rest) prev s need gs =
  match atom_of nd with
  | Bol => if at_bol prev then cont nd rest prev s need gs 0 else None
  | Eol => if at_eol s then cont nd rest prev s need gs 0 else None
  | Chr c =>
      match s with
      | x :: _ => if c x then cont nd rest prev s need gs 1 else None
      | [] => None
      end
  | Rep c lo hi greedy =>
      let n := cap hi (run c s) in
      if n <? lo then None
      else (if greedy then @first_down _ else @first_up _)
             (cont nd rest prev s need gs) lo (n - lo)
  end.
Proof. destruct nd; reflexivity. Qed.

Lemma cont_inv nd rest prev s need gs k n g :
  cont nd rest prev s need gs k = Some (n, g) ->
  exists n', n = k + n' /\
    exec rest (prev_after prev k s) (skipn k s) (need && (k =? 0))
         (if keeps nd then firstn k s :: gs else gs) = Some (n', g).
Proof.
  unfold cont, advance.
  destruct (exec rest _ _ _ _) as [[n' g']|]; [|discriminate].
  intros H; inversion H; subst. exists n'. split; reflexivity.
Qed.

(** The step of an atom: it took [k] characters of [s], all of its class
    when it has one, and the rest of the pattern matched what follows. *)
Lemma exec_cons_inv nd rest prev s need gs n g :
  exec (nd :: rest) prev s need gs = Some (n, g) ->
  exists k n',
    n = k + n' /\ k <= List.length s /\
    exec rest (prev_after prev k s) (skipn k s) (need && (k =? 0))
         (if keeps nd then firstn k s :: gs else gs) = Some (n', g) /\
    match atom_of nd with
    | Bol => k = 0 /\ at_bol prev = true
    | Eol => k = 0 /\ at_eol s = true
    | Chr c => k = 1 /\ exists x t, s = x :: t /\ c x = true
    | Rep c lo hi _ => lo <= k <= cap hi (run c s)
    end.
Proof.
  rewrite exec_cons. destruct (atom_of nd) as [| |c|c lo hi greedy].
  - destruct (at_bol prev) eqn:E; [|discriminate]. intros H.
    destruct (cont_inv _ _ _ _ _ _ _ _ _ H) as (n' & -> & Hn').
    exists 0, n'. repeat split; auto; lia.
  - destruct (at_eol s) eqn:E; [|discriminate]. intros H.
    destruct (cont_inv _ _ _ _ _ _ _ _ _ H) as (n' & -> & Hn').
    exists 0, n'. repeat split; auto; lia.
  - destruct s as [|x t]; [discriminate|].
    destruct (c x) eqn:E; [|discriminate]. intros H.
    destruct (cont_inv _ _ _ _ _ _ _ _ _ H) as (n' & -> & Hn').
    exists 1, n'. repeat split; auto; [simpl; lia|].
    exists x, t. split; [reflexivity|exact E].
  - cbv zeta. destruct (cap hi (run c s) <? lo) eqn:E; [discriminate|].
    apply Nat.ltb_ge in E. intros H.
    assert (exists k, lo <= k <= lo + (cap hi (run c s) - lo) /\
                      cont nd rest prev s need gs k = Some (n, g))
      as (k & Hk & Hc).
    { destruct greedy; [eapply first_down_inv|eapply first_up_inv]; exact H. }
    destruct (cont_inv _ _ _ _ _ _ _ _ _ Hc) as (n' & -> & Hn').
    exists k, n'. repeat split; auto; try lia.
    pose proof (cap_le hi (run c s)). pose proof (run_le c s). lia.
Qed.

Lemma exec_min_len : forall r prev s need gs n g,
  exec r prev s need gs = Some (n, g) -> min_len r <= n.
Proof.
  induction r as [|nd rest IH]; intros prev s need gs n g H; simpl; [lia|].
  destruct (exec_cons_inv _ _ _ _ _ _ _ _ H) as (k & n' & -> & _ & Hrest & Hk).
  apply IH in Hrest.
  destruct (atom_of nd); [| |destruct Hk as (-> & _)|]; lia.
Qed.

(** A match lies inside the text and is made of characters that the
    classes of the pattern take. *)
Lemma exec_accepts : forall r prev s need gs n g,
  exec r prev s need gs = Some (n, g) ->
  n <= List.length s /\
  Forall (fun ch => accepts r ch = true) (firstn n s).
Proof.
  induction r as [|nd rest IH]; intros prev s need gs n g H.
  - simpl in H. destruct need; [discriminate|]. inversion H; subst.
    split; [lia|constructor].
  - destruct (exec_cons_inv _ _ _ _ _ _ _ _ H) as (k & n' & -> & Hlen & Hrest & Hk).
    apply IH in Hrest. destruct Hrest as (Hn' & Hall).
    rewrite length_skipn in Hn'. split; [lia|].
    rewrite firstn_plus. apply Forall_app. split.
    + assert (Forall (fun ch =>
                match atom_of nd with
                | Bol | Eol => false
                | Chr c => c ch
                | Rep c _ _ _ => c ch
                end = true) (firstn k s)) as Hk'.
      { destruct (atom_of nd) as [| |c|c lo hi greedy].
        - destruct Hk as (-> & _). constructor.
        - destruct Hk as (-> & _). constructor.
        - destruct Hk as (-> & x & t & -> & Hx). simpl.
          constructor; [exact Hx|constructor].
        - apply run_firstn. pose proof (cap_le hi (run c s)). lia. }
      eapply Forall_impl; [|exact Hk']. intros ch Hch.
      unfold accepts. simpl. rewrite Hch. reflexivity.
    + eapply Forall_impl; [|exact Hall]. intros ch Hch.
      unfold accepts in *. simpl. rewrite Hch. apply orb_true_r.
Qed.

(** Whatever holds of every match of the pattern holds of every match that
    the scan reports. *)
Lemma scan_Forall (P : hit -> Prop) r :
  (forall prev s need n g,
     exec r prev s need [] = Some (n, g) -> P (Hit (firstn n s) g)) ->
  forall s prev skip, Forall P (scan r prev skip s).
Proof.
  intros HP. induction s as [|x t IH]; intros prev skip; simpl.
  - destruct skip; [|constructor].
    destruct (exec r prev [] false []) as [[n g]|] eqn:E; [|constructor].
    constructor; [|constructor].
    apply HP in E. unfold hit_at. simpl. rewrite firstn_nil in *. exact E.
  - destruct skip as [|k]; [|apply IH].
    destruct (exec r prev (x :: t) false []) as [[[|n] g]|] eqn:E.
    + constructor; [apply (HP _ _ _ _ _ E)|].
      destruct (exec r prev (x :: t) true []) as [[n' g']|] eqn:E'.
      * constructor; [apply (HP _ _ _ _ _ E')|apply IH].
      * apply IH.
    + constructor; [apply (HP _ _ _ _ _ E)|apply IH].
    + apply IH.
Qed.

(** The scan of a pattern that matches no empty text. *)
Lemma scan_nonempty r prev x t :
  0 < min_len r ->
  scan r prev 0 (x :: t) =
  match exec r prev (x :: t) false [] with
  | Some (n, g) => Hit (firstn n (x :: t)) g :: scan r (Some x) (pred n) t
  | None => scan r (Some x) 0 t
  end.
Proof.
  intros Hr. simpl.
  destruct (exec r prev (x :: t) false []) as [[[|n] g]|] eqn:E; try reflexivity.
  apply exec_min_len in E. lia.
Qed.

Lemma scan_end r prev skip : 0 < min_len r -> scan r prev skip [] = [].
Proof.
  intros Hr. simpl. destruct skip; [|reflexivity].
  destruct (exec r prev [] false []) as [[n g]|] eqn:E; [|reflexivity].
  pose proof (exec_min_len _ _ _ _ _ _ _ E).
  apply exec_accepts in E. simpl in E. lia.
Qed.

(** Skipping: the scan starts again after the characters of the match. *)
Lemma scan_skip r : forall s prev k,
  k <= List.length s ->
  scan r prev k s = scan r (prev_after prev k s) 0 (skipn k s).
Proof.
  induction s as [|x t IH]; intros prev k Hk.
  - simpl in Hk. assert (k = 0) by lia. subst. reflexivity.
  - destruct k as [|k]; [reflexivity|].
    simpl in Hk. simpl scan. rewrite IH by lia.
    destruct k; reflexivity.
Qed.

End ReFacts.

(* ===================================================================== *)
(** ** The heading hierarchy checker *)
(* ===================================================================== *)

Module HeadingFacts.

Import ReFacts HeadingHierarchy Spec.

(** A match of the heading pattern has two groups; the first holds one to
    six characters. *)
Lemma heading_groups prev s need n g :
  exec heading_re prev s need [] = Some (n, g) ->
  exists g1 g2, g = [g1; g2] /\ 1 <= List.length g1 <= 6.
Proof.
  unfold heading_re. intros H.
  destruct (exec_cons_inv _ _ _ _ _ _ _ _ H) as (k0 & n0 & _ & _ & H0 & (-> & _)).
  clear H. simpl keeps in H0. cbv iota in H0.
  destruct (exec_cons_inv _ _ _ _ _ _ _ _ H0) as (k1 & n1 & _ & L1 & H1 & B1).
  clear H0. simpl keeps in H1. cbv iota in H1. simpl atom_of in B1.
  destruct (exec_cons_inv _ _ _ _ _ _ _ _ H1) as (k2 & n2 & _ & _ & H2 & _).
  clear H1. simpl keeps in H2. cbv iota in H2.
  destruct (exec_cons_inv _ _ _ _ _ _ _ _ H2) as (k3 & n3 & _ & _ & H3 & _).
  clear H2. simpl keeps in H3. cbv iota in H3.
  destruct (exec_cons_inv _ _ _ _ _ _ _ _ H3) as (k4 & n4 & _ & _ & H4 & _).
  clear H3. simpl keeps in H4. cbv iota in H4.
  simpl exec in H4.
  destruct (_ && _) in H4; [discriminate|].
  inversion H4; subst. simpl rev.
  eexists _, _. split; [reflexivity|].
  simpl skipn in *. rewrite length_firstn.
  cbv iota in B1. unfold cap in B1. lia.
Qed.

(** Every heading that [re.findall] returns has a level from 1 to 6. *)
Lemma heading_levels content :
  Forall (fun h => 1 <= Spec.level h <= 6) (findall2 heading_re content).
Proof.
  unfold findall2, finditer. apply Forall_map.
  apply scan_Forall. intros prev s need n g H.
  destruct (heading_groups _ _ _ _ _ H) as (g1 & g2 & -> & Hl).
  exact Hl.
Qed.

(** The loop, started at any [prev_level] with any [issues]. *)
Lemma loop_jumps : forall hs p acc,
  Forall (fun h => 1 <= Spec.level h <= 6) hs ->
  snd (fold_left step hs (p, acc)) =
  acc
  ++ match hs with
     | [] => []
     | b :: _ =>
         if (0 <? p) && (p + 1 <? Spec.level b)
         then [issue_text p (Spec.level b) (snd b)]
         else []
     end
  ++ Spec.jumps hs.
Proof.
  induction hs as [|b t IH]; intros p acc Hall.
  - simpl. rewrite app_nil_r. reflexivity.
  - inversion Hall as [|? ? Hb Ht]; subst.
    cbn [fold_left]. unfold step at 2. cbn [fst snd].
    fold (Spec.level b). rewrite (IH _ _ Ht).
    assert ((0 <? Spec.level b) = true) as Hpos by (apply Nat.ltb_lt; lia).
    destruct t as [|c t'].
    + cbn [Spec.jumps]. rewrite !app_nil_r.
      destruct ((0 <? p) && (p + 1 <? Spec.level b)); [reflexivity|].
      rewrite app_nil_r. reflexivity.
    + cbn [Spec.jumps]. rewrite Hpos. cbn [andb].
      destruct ((0 <? p) && (p + 1 <? Spec.level b));
        rewrite <- ?app_assoc; reflexivity.
Qed.

Lemma jumps_nil hs : Spec.jumps hs = [] <-> Spec.gentle hs = true.
Proof.
  induction hs as [|a t IH]; [simpl; tauto|].
  destruct t as [|b t']; [simpl; tauto|].
  cbn [Spec.jumps Spec.gentle].
  destruct (Nat.leb_spec (Spec.level b) (Spec.level a + 1)) as [Hle|Hlt].
  - replace (Spec.level a + 1 <? Spec.level b) with false
      by (symmetry; apply Nat.ltb_ge; exact Hle).
    cbn [app andb]. exact IH.
  - replace (Spec.level a + 1 <? Spec.level b) with true
      by (symmetry; apply Nat.ltb_lt; exact Hlt).
    cbn [app andb]. split; discriminate.
Qed.

(** *** A line of hashes alone *)

Lemma run_hashes k u :
  match u with x :: _ => only 35%N x = false | [] => True end ->
  run (only 35%N) (hashes k ++ u) = k.
Proof.
  intros Hu. induction k as [|k IH].
  - simpl. destruct u as [|x t]; [reflexivity|]. simpl. rewrite Hu. reflexivity.
  - change (hashes (S k) ++ u) with (35%N :: (hashes k ++ u)).
    cbn [run]. change (only 35%N 35%N) with true. cbv iota.
    rewrite IH. reflexivity.
Qed.

Lemma run_all c s : Forall (fun x => c x = true) s -> run c s = List.length s.
Proof.
  induction 1 as [|x t Hx _ IH]; simpl; [reflexivity|].
  rewrite Hx, IH. reflexivity.
Qed.

Lemma skipn_hashes k u : skipn k (hashes k ++ u) = u.
Proof. induction k; simpl; auto. Qed.

Lemma firstn_hashes k u : firstn k (hashes k ++ u) = hashes k.
Proof.
  unfold hashes. induction k; simpl; [reflexivity|]. rewrite IHk. reflexivity.
Qed.

(** A line of hashes alone, a line break, and the text of the next line:
    one match, over both lines. *)
Lemma lone_hashes_exec k title prev need :
  1 <= k <= 6 -> at_bol prev = true ->
  match title with x :: _ => isspace x = false | [] => False end ->
  Forall (fun c => c <> NL) title ->
  exec heading_re prev (hashes k ++ NL :: title) need [] =
  Some (k + (1 + (List.length title + 0)), [hashes k; title]).
Proof.
  intros Hk Hbol Hx Ht. unfold heading_re.
  rewrite exec_cons. cbn [atom_of]. rewrite Hbol.
  unfold cont at 1. rewrite advance_0. cbn [skipn keeps prev_after].
  rewrite exec_cons. cbn [atom_of]. cbv zeta.
  rewrite run_hashes by reflexivity.
  unfold cap. rewrite Nat.min_r by lia.
  replace (k <? 1) with false by (symmetry; apply Nat.ltb_ge; lia).
  apply first_down_first. replace (1 + (k - 1)) with k by lia.
  unfold cont at 1. cbn [keeps]. rewrite skipn_hashes, firstn_hashes.
  apply advance_some.
  rewrite exec_cons. cbn [atom_of plus]. cbv zeta.
  assert (run space (NL :: title) = 1) as Hrun.
  { cbn [run]. change (space NL) with true. cbv iota.
    destruct title as [|x t]; [reflexivity|]. cbn [run].
    unfold space. rewrite Hx. reflexivity. }
  rewrite Hrun. change (cap None 1 <? 1) with false. cbv iota.
  apply first_down_first. change (1 + (cap None 1 - 1)) with 1.
  unfold cont at 1. cbn [keeps skipn]. apply advance_some.
  rewrite exec_cons. cbn [atom_of plus]. cbv zeta.
  assert (Forall (fun c => dot c = true) title) as Hdot.
  { eapply Forall_impl; [|exact Ht]. intros c Hc. unfold dot.
    destruct (c =? NL)%N eqn:E; [|reflexivity].
    apply N.eqb_eq in E. contradiction. }
  rewrite (run_all _ _ Hdot). cbn [cap].
  assert (1 <= List.length title) as Hlen
    by (destruct title; [contradiction|simpl; lia]).
  replace (List.length title <? 1) with false
    by (symmetry; apply Nat.ltb_ge; lia).
  apply first_down_first.
  replace (1 + (List.length title - 1)) with (List.length title) by lia.
  unfold cont at 1. cbn [keeps].
  rewrite skipn_all, firstn_all. apply advance_some.
  rewrite exec_cons. cbn [atom_of at_eol].
  unfold cont. rewrite advance_0. cbn [exec skipn keeps].
  rewrite !andb_false_r. reflexivity.
Qed.

Lemma heading_min_len : 0 < min_len heading_re.
Proof. cbv. lia. Qed.

(** The scan reports that one heading, titled by the second line. *)
Lemma lone_hashes_found k title :
  1 <= k <= 6 ->
  match title with x :: _ => isspace x = false | [] => False end ->
  Forall (fun c => c <> NL) title ->
  findall2 heading_re (hashes k ++ NL :: title) = [(hashes k, title)].
Proof.
  intros Hk Hx Ht. unfold findall2, finditer.
  destruct k as [|k]; [lia|].
  change (hashes (S k) ++ NL :: title)
    with (35%N :: (hashes k ++ NL :: title)).
  rewrite scan_nonempty by apply heading_min_len.
  change (35%N :: (hashes k ++ NL :: title))
    with (hashes (S k) ++ NL :: title).
  rewrite lone_hashes_exec by auto.
  cbn [map groups nth]. f_equal.
  rewrite scan_skip.
  - replace (skipn _ _) with (@nil N).
    + rewrite scan_end by apply heading_min_len. reflexivity.
    + symmetry. apply skipn_all2. rewrite length_app.
      unfold hashes. rewrite repeat_length. simpl. lia.
  - rewrite length_app. unfold hashes. rewrite repeat_length. simpl. lia.
Qed.

End HeadingFacts.

(* ===================================================================== *)
(** ** The counts of the complexity analyzer *)
(* ===================================================================== *)

Module ComplexityFacts.

Import ReFacts MarkdownComplexity Spec.

(** *** Code fences *)

Lemma fence_exec prev s need :
  exec fence_re prev s need [] =
  match s with
  | a :: b :: c :: _ =>
      if ((a =? 96) && (b =? 96) && (c =? 96))%N then Some (3, []) else None
  | _ => None
  end.
Proof.
  destruct s as [|a [|b [|c t]]]; cbn -[N.eqb]; unfold only;
    repeat (destruct (_ =? 96)%N; cbn -[N.eqb]); try reflexivity.
  rewrite !andb_false_r. reflexivity.
Qed.

Lemma fence_min_len : 0 < min_len fence_re.
Proof. cbv. lia. Qed.

Lemma fence_scan : forall n s prev,
  List.length s <= n ->
  List.length (scan fence_re prev 0 s) = Spec.occurrences s.
Proof.
  induction n as [|n IH]; intros s prev Hn.
  - destruct s; [|simpl in Hn; lia]. rewrite scan_end by apply fence_min_len.
    reflexivity.
  - destruct s as [|a t]; [rewrite scan_end by apply fence_min_len; reflexivity|].
    rewrite scan_nonempty by apply fence_min_len. rewrite fence_exec.
    simpl in Hn.
    destruct t as [|b [|c t']].
    + rewrite scan_end by apply fence_min_len. reflexivity.
    + rewrite IH by (simpl in *; lia). reflexivity.
    + cbn [Spec.occurrences].
      destruct ((a =? 96) && (b =? 96) && (c =? 96))%N.
      * cbn [pred scan List.length]. rewrite IH by (simpl in *; lia).
        reflexivity.
      * apply IH. simpl in *. lia.
Qed.

Lemma fence_count content :
  List.length (findall0 fence_re content) = Spec.occurrences content.
Proof.
  unfold findall0, finditer. rewrite length_map.
  apply (fence_scan (List.length content)). lia.
Qed.


(** *** List items *)

Lemma marker_not_space m : marker m = true -> isspace m = false.
Proof.
  unfold marker. intros H.
  apply orb_true_iff in H. destruct H as [H|H];
    [apply orb_true_iff in H; destruct H as [H|H]|];
    apply N.eqb_eq in H; subst; reflexivity.
Qed.

Lemma space_not_marker x : isspace x = true -> marker x = false.
Proof.
  intros H. destruct (marker x) eqn:E; [|reflexivity].
  apply marker_not_space in E. congruence.
Qed.

Lemma run_space_lstrip s : skipn (run space s) s = Spec.lstrip s.
Proof.
  induction s as [|x t IH]; simpl; [reflexivity|].
  unfold space at 1. destruct (isspace x); simpl; [exact IH|reflexivity].
Qed.

Lemma tail_exec prev u need gs :
  exec [Plain (Chr marker); Plain (Chr space)] prev u need gs =
  match u with
  | m :: c :: _ => if marker m && space c then Some (2, rev gs) else None
  | _ => None
  end.
Proof.
  destruct u as [|m [|c t]]; cbn -[marker space];
    repeat (destruct (marker _); cbn -[marker space]);
    repeat (destruct (space _); cbn -[marker space]); try reflexivity.
  rewrite !andb_false_r. reflexivity.
Qed.

(** The list pattern matches at the start of a line whose first character
    after the white space is a marker followed by white space. *)
Lemma list_exec prev s need :
  exec list_re prev s need [] =
  if at_bol prev && item s then Some (run space s + 2, []) else None.
Proof.
  unfold list_re. rewrite exec_cons. cbn [atom_of].
  destruct (at_bol prev); [|reflexivity]. cbn [andb].
  unfold cont at 1. rewrite advance_0. cbn [skipn keeps prev_after].
  rewrite exec_cons. cbn [atom_of star cap]. cbv zeta.
  replace (run space s <? 0) with false by (symmetry; apply Nat.ltb_ge; lia).
  rewrite Nat.sub_0_r.
  assert (forall k, cont (Plain (star space))
                      [Plain (Chr marker); Plain (Chr space)] prev s
                      (need && (0 =? 0)) [] k =
                    match skipn k s with
                    | m :: c :: _ =>
                        if marker m && space c then Some (k + 2, []) else None
                    | _ => None
                    end) as Hcont.
  { intros k. unfold cont. rewrite tail_exec. cbn [keeps rev].
    destruct (skipn k s) as [|m [|c t]]; try reflexivity.
    destruct (marker m && space c); reflexivity. }
  unfold item, Spec.item_line. rewrite <- run_space_lstrip.
  destruct (skipn (run space s) s) as [|m [|c rest]] eqn:E.
  - apply first_down_none. intros k Hk. rewrite Hcont.
    destruct (Nat.eq_dec k (run space s)) as [->|Hne]; [rewrite E; reflexivity|].
    destruct (run_skipn space s k) as (x & t & -> & Hx); [lia|].
    rewrite (space_not_marker _ Hx). destruct t; reflexivity.
  - apply first_down_none. intros k Hk. rewrite Hcont.
    destruct (Nat.eq_dec k (run space s)) as [->|Hne]; [rewrite E; reflexivity|].
    destruct (run_skipn space s k) as (x & t & -> & Hx); [lia|].
    rewrite (space_not_marker _ Hx). destruct t; reflexivity.
  - destruct (marker m && space c) eqn:Hm.
    + apply first_down_first. rewrite Hcont. cbn [Nat.add]. rewrite E, Hm.
      reflexivity.
    + apply first_down_none. intros k Hk. rewrite Hcont.
      destruct (Nat.eq_dec k (run space s)) as [->|Hne];
        [rewrite E, Hm; reflexivity|].
      destruct (run_skipn space s k) as (x & t & -> & Hx); [lia|].
      rewrite (space_not_marker _ Hx). destruct t; reflexivity.
Qed.


Lemma cnt_cons l ls : cnt (l :: ls) = (if item l then 1 else 0) + cnt ls.
Proof. unfold cnt. simpl. destruct (item l); reflexivity. Qed.

Lemma item_space_cons y l : isspace y = true -> item (y :: l) = item l.
Proof. intros H. unfold item, Spec.item_line. simpl. rewrite H. reflexivity. Qed.

Lemma item_blank y : isspace y = true -> item [y] = false.
Proof. intros H. unfold item, Spec.item_line. simpl. rewrite H. reflexivity. Qed.

Lemma lines_cons x t :
  Spec.lines (x :: t) =
  if (x =? NL)%N then [x] :: Spec.lines t
  else match Spec.lines t with
       | [] => [[x]]
       | l :: ls => (x :: l) :: ls
       end.
Proof. reflexivity. Qed.

Lemma concat_lines s : List.concat (Spec.lines s) = s.
Proof.
  induction s as [|x t IH]; [reflexivity|]. rewrite lines_cons.
  destruct (x =? NL)%N.
  - simpl. rewrite IH. reflexivity.
  - destruct (Spec.lines t) as [|l ls]; simpl in *; rewrite <- IH; reflexivity.
Qed.

Lemma lstrip_app l u :
  Spec.lstrip l <> [] -> Spec.lstrip (l ++ u) = Spec.lstrip l ++ u.
Proof.
  induction l as [|x t IH]; simpl; [congruence|].
  destruct (isspace x); [exact IH|reflexivity].
Qed.

(** A line that is an item makes the text that starts with it an item. *)
Lemma item_first_line s l ls :
  Spec.lines s = l :: ls -> item l = true -> item s = true.
Proof.
  intros Hl Hi. rewrite <- (concat_lines s), Hl. simpl.
  unfold item, Spec.item_line in *.
  rewrite lstrip_app by (destruct (Spec.lstrip l); [discriminate|congruence]).
  destruct (Spec.lstrip l) as [|m [|c r]]; try discriminate. exact Hi.
Qed.

(** White space before a text adds no item line. *)
Lemma cnt_blank_prefix ws u :
  Forall (fun x => space x = true) ws ->
  cnt (Spec.lines (ws ++ u)) = cnt (Spec.lines u).
Proof.
  induction 1 as [|y ws Hy _ IH]; [reflexivity|].
  simpl app. rewrite lines_cons. destruct (y =? NL)%N.
  - rewrite cnt_cons, item_blank by exact Hy. exact IH.
  - rewrite <- IH. destruct (Spec.lines (ws ++ u)) as [|l ls].
    + rewrite cnt_cons, item_blank by exact Hy. reflexivity.
    + rewrite !cnt_cons, item_space_cons by exact Hy. reflexivity.
Qed.

Lemma list_min_len : 0 < min_len list_re.
Proof. cbv. lia. Qed.

Lemma skipn_cons2 (s : str) w m c rest :
  skipn w s = m :: c :: rest ->
  skipn (w + 2) s = rest /\ nth_error s (w + 1) = Some c /\
  w + 2 <= List.length s /\ s = firstn w s ++ m :: c :: rest.
Proof.
  revert s. induction w as [|w IH]; intros s H.
  - simpl in H. subst. simpl. repeat split; lia.
  - destruct s as [|x t]; [discriminate|]. simpl in H.
    destruct (IH _ H) as (H1 & H2 & H3 & H4).
    simpl. repeat split; auto; [lia|]. f_equal. exact H4.
Qed.

(** The scan of the list pattern reports one match for every item line:
    all lines when it starts at the beginning of a line, the lines after
    the current one when it starts inside a line. *)
Lemma list_scan : forall n s prev,
  List.length s <= n ->
  List.length (scan list_re prev 0 s) =
  if at_bol prev then cnt (Spec.lines s) else cnt (tl (Spec.lines s)).
Proof.
  induction n as [|n IH]; intros s prev Hn.
  - destruct s; [|simpl in Hn; lia]. rewrite scan_end by apply list_min_len.
    destruct (at_bol prev); reflexivity.
  - destruct s as [|x t]; [rewrite scan_end by apply list_min_len;
                           destruct (at_bol prev); reflexivity|].
    simpl in Hn. rewrite scan_nonempty by apply list_min_len.
    rewrite list_exec. destruct (at_bol prev); cbn [andb].
    + destruct (item (x :: t)) eqn:Hitem.
      * (* a match: the white space, the marker and one more character *)
        cbn [List.length]. rewrite Nat.add_comm. cbn [Nat.add pred].
        pose proof Hitem as Hs. unfold item, Spec.item_line in Hs.
        rewrite <- run_space_lstrip in Hs.
        destruct (skipn (run space (x :: t)) (x :: t)) as [|m [|c rest]] eqn:E;
          try discriminate.
        apply andb_true_iff in Hs. destruct Hs as (Hm & Hc).
        destruct (skipn_cons2 _ _ _ _ _ E) as (Hrest & Hnth & Hlen & Hsplit).
        set (w := run space (x :: t)) in *.
        rewrite scan_skip by (simpl in Hlen; lia).
        replace (prev_after (Some x) (S w) t) with (Some c)
          by (rewrite <- Hnth; rewrite Nat.add_comm; reflexivity).
        replace (skipn (S w) t) with rest
          by (rewrite <- Hrest; rewrite Nat.add_comm; reflexivity).
        rewrite IH
          by (rewrite <- Hrest, length_skipn; simpl List.length; lia).
        rewrite Hsplit.
        rewrite cnt_blank_prefix by (apply run_firstn; unfold w; lia).
        pose proof (marker_not_space _ Hm) as Hms.
        assert ((m =? NL)%N = false) as HmNL.
        { destruct (m =? NL)%N eqn:Em; [|reflexivity].
          apply N.eqb_eq in Em. subst. discriminate. }
        assert (forall r, item (m :: c :: r) = true) as Hit.
        { intros r. unfold item, Spec.item_line. simpl. rewrite Hms, Hm.
          exact Hc. }
        rewrite (lines_cons m), HmNL, (lines_cons c).
        unfold at_bol. destruct (c =? NL)%N.
        -- rewrite cnt_cons, Hit. reflexivity.
        -- destruct (Spec.lines rest) as [|l ls];
             rewrite cnt_cons, Hit; reflexivity.
      * (* no match here: on to the next character *)
        rewrite IH by lia. rewrite lines_cons. unfold at_bol.
        destruct (x =? NL)%N eqn:Ex.
        -- apply N.eqb_eq in Ex. subst.
           rewrite cnt_cons, item_blank by reflexivity. reflexivity.
        -- destruct (Spec.lines t) as [|l ls] eqn:El.
           ++ rewrite cnt_cons. simpl tl.
              destruct (item [x]) eqn:Ei; [|reflexivity].
              rewrite (item_first_line (x :: t) [x] []) in Hitem;
                [discriminate| |exact Ei].
              rewrite lines_cons, Ex, El. reflexivity.
           ++ rewrite cnt_cons. simpl tl.
              destruct (item (x :: l)) eqn:Ei; [|reflexivity].
              rewrite (item_first_line (x :: t) (x :: l) ls) in Hitem;
                [discriminate| |exact Ei].
              rewrite lines_cons, Ex, El. reflexivity.
    + (* inside a line: nothing matches before the next line *)
      rewrite IH by lia. rewrite lines_cons. unfold at_bol.
      destruct (x =? NL)%N; [reflexivity|].
      destruct (Spec.lines t); reflexivity.
Qed.

Lemma list_count content :
  List.length (findall0 list_re content) =
  Spec.count_item_lines space content.
Proof.
  unfold findall0, finditer. rewrite length_map.
  apply (list_scan (List.length content)). lia.
Qed.

(** *** Links *)

Lemma link_hit_one_line prev s need n g :
  exec link_re prev s need [] = Some (n, g) -> ~ In NL (firstn n s).
Proof.
  intros H Hin. apply exec_accepts in H. destruct H as (_ & Hall).
  rewrite Forall_forall in Hall. apply Hall in Hin.
  vm_compute in Hin. discriminate.
Qed.

Lemma links_one_line content :
  Forall (fun m => ~ In NL m) (findall0 link_re content).
Proof.
  unfold findall0, finditer. apply Forall_map.
  apply scan_Forall. intros prev s need n g H. simpl.
  eapply link_hit_one_line. exact H.
Qed.
End ComplexityFacts.

(* ===================================================================== *)
(** ** The walk over [docs] and the two loops over its files *)
(* ===================================================================== *)

Module WalkFacts.

Import Spec.

Lemma in_files_of n d : forall l,
  In (n, d) (files_of l) <-> In (File n d) l.
Proof.
  induction l as [|e t IH]; simpl; [tauto|].
  destruct e as [n' d'|n' ch]; simpl; rewrite IH; split.
  - intros [H|H]; [left; inversion H; reflexivity|right; exact H].
  - intros [H|H]; [left; inversion H; reflexivity|right; exact H].
  - intros H; right; exact H.
  - intros [H|H]; [discriminate|exact H].
Qed.

Lemma walk_entry_dir parent sub children :
  walk_entry parent (Dir sub children) = walk (join parent sub) children.
Proof. reflexivity. Qed.

(** A file that the walk lists is a file of the tree. *)
Lemma walk_entry_sound e :
  forall parent root files n d,
    In (root, files) (walk_entry parent e) -> In (n, d) files ->
    match e with
    | File _ _ => False
    | Dir sub children => Spec.located (join parent sub) children root n d
    end.
Proof.
  induction e as [n0 d0|sub children IH] using entry_rect';
    intros parent root files n d Hin Hf; simpl in Hin; [exact Hin|].
  destruct Hin as [Hin|Hin].
  - inversion Hin; subst. apply Spec.located_here. apply in_files_of. exact Hf.
  - apply in_flat_map in Hin. destruct Hin as (e' & He' & Hin).
    rewrite Forall_forall in IH. specialize (IH e' He' _ _ _ _ _ Hin Hf).
    destruct e' as [|sub' children']; [contradiction|].
    eapply Spec.located_below; eassumption.
Qed.

Lemma walk_sound top listing root files n d :
  In (root, files) (walk top listing) -> In (n, d) files ->
  Spec.located top listing root n d.
Proof.
  unfold walk. intros [Hin|Hin] Hf.
  - inversion Hin; subst. apply Spec.located_here. apply in_files_of. exact Hf.
  - apply in_flat_map in Hin. destruct Hin as (e & He & Hin).
    pose proof (walk_entry_sound e _ _ _ _ _ Hin Hf) as H.
    destruct e as [|sub children]; [contradiction|].
    eapply Spec.located_below; eassumption.
Qed.

(** Every file of the tree is listed by the walk, with its directory. *)
Lemma walk_complete top listing root n d :
  Spec.located top listing root n d ->
  exists files, In (root, files) (walk top listing) /\ In (n, d) files.
Proof.
  induction 1 as [top listing n d Hin|top listing sub children root n d Hin _ IH].
  - exists (files_of listing). split; [left; reflexivity|].
    apply in_files_of. exact Hin.
  - destruct IH as (files & Hw & Hf). exists files. split; [|exact Hf].
    right. apply in_flat_map. exists (Dir sub children). split; [exact Hin|].
    rewrite walk_entry_dir. exact Hw.
Qed.

(** The files the loops select: the [.md] files of the tree, at any depth. *)
Lemma selected_spec docs p d :
  In (p, d) (selected docs) <->
  exists root name,
    Spec.located (lit "docs") docs root name d /\
    endswith name (lit ".md") = true /\ p = join root name.
Proof.
  unfold selected. rewrite in_flat_map. split.
  - intros ([root files] & Hw & Hin). cbn [fst snd] in Hin.
    apply in_flat_map in Hin. destruct Hin as ([n d'] & Hf & Hin).
    cbn [fst snd] in Hin.
    destruct (endswith n (lit ".md")) eqn:E; [|contradiction].
    destruct Hin as [Hin|[]]. inversion Hin; subst.
    exists root, n. repeat split; auto.
    eapply walk_sound; eassumption.
  - intros (root & n & Hloc & Hmd & ->).
    destruct (walk_complete _ _ _ _ _ Hloc) as (files & Hw & Hf).
    exists (root, files). split; [exact Hw|]. cbn [fst snd].
    apply in_flat_map. exists (n, d). split; [exact Hf|].
    cbn [fst snd]. rewrite Hmd. left; reflexivity.
Qed.

Lemma texts_of_readable l :
  Forall (fun f : str * option str => snd f <> None) l ->
  exists files, l = Spec.texts_of files.
Proof.
  induction 1 as [|[p [c|]] t Hp _ (files & ->)].
  - exists []. reflexivity.
  - exists ((p, c) :: files). reflexivity.
  - exfalso. apply Hp. reflexivity.
Qed.

Lemma texts_of_inv files : forall p c,
  In (p, Some c) (Spec.texts_of files) <-> In (p, c) files.
Proof.
  intros p c. unfold Spec.texts_of. rewrite in_map_iff. split.
  - intros ([p' c'] & H & Hin). inversion H; subst. exact Hin.
  - intros H. exists (p, c). split; [reflexivity|exact H].
Qed.

(** The loop of the heading checker ends well exactly when every selected
    file can be read, and then holds the issues of all of them in order. *)
Lemma hierarchy_loop l : forall acc r,
  for_each l
    (fun all_issues file =>
       issues <- HeadingHierarchy.check_heading_hierarchy (snd file) ;;
       Ok (all_issues
           ++ map (fun issue => fst file ++ lit ": " ++ issue) issues))
    acc = Ok r <->
  exists files, l = Spec.texts_of files /\ r = acc ++ flat_map issues_of files.
Proof.
  induction l as [|[p d] t IH]; intros acc r; simpl.
  - split.
    + intros H; inversion H; subst. exists []. simpl.
      rewrite app_nil_r. split; reflexivity.
    + intros ([|f files] & Hl & ->); [|discriminate].
      simpl. rewrite app_nil_r. reflexivity.
  - destruct d as [c|]; simpl.
    + rewrite IH. split.
      * intros (files & -> & ->). exists ((p, c) :: files).
        split; [reflexivity|]. simpl. rewrite app_assoc. reflexivity.
      * intros ([|[p' c'] files] & Hl & ->); [discriminate|].
        inversion Hl; subst. exists files. split; [reflexivity|].
        simpl. rewrite app_assoc. reflexivity.
    + split; [discriminate|].
      intros ([|[p' c'] files] & Hl & _); discriminate.
Qed.

Lemma complexity_loop l : forall acc r,
  for_each l
    (fun high_complexity_files file =>
       st <- MarkdownComplexity.analyze_complexity (snd file) ;;
       Ok (if MarkdownComplexity.is_high st
           then high_complexity_files ++ [(fst file, st)]
           else high_complexity_files))
    acc = Ok r <->
  exists files, l = Spec.texts_of files /\ r = acc ++ flat_map high_of files.
Proof.
  induction l as [|[p d] t IH]; intros acc r; simpl.
  - split.
    + intros H; inversion H; subst. exists []. simpl.
      rewrite app_nil_r. split; reflexivity.
    + intros ([|f files] & Hl & ->); [|discriminate].
      simpl. rewrite app_nil_r. reflexivity.
  - destruct d as [c|]; simpl.
    + rewrite IH. split.
      * intros (files & -> & ->). exists ((p, c) :: files).
        split; [reflexivity|]. simpl. unfold high_of at 2. cbn [fst snd].
        destruct (MarkdownComplexity.is_high _);
          rewrite <- ?app_assoc; reflexivity.
      * intros ([|[p' c'] files] & Hl & ->); [discriminate|].
        inversion Hl; subst. exists files. split; [reflexivity|].
        simpl. unfold high_of at 1. cbn [fst snd].
        destruct (MarkdownComplexity.is_high _);
          rewrite <- ?app_assoc; reflexivity.
    + split; [discriminate|].
      intros ([|[p' c'] files] & Hl & _); discriminate.
Qed.

Lemma hierarchy_collect docs r :
  HeadingHierarchy.collect docs = Ok r <->
  exists files,
    selected docs = Spec.texts_of files /\ r = flat_map issues_of files.
Proof. unfold HeadingHierarchy.collect. apply hierarchy_loop. Qed.

Lemma complexity_collect docs r :
  MarkdownComplexity.collect docs = Ok r <->
  exists files,
    selected docs = Spec.texts_of files /\ r = flat_map high_of files.
Proof. unfold MarkdownComplexity.collect. apply complexity_loop. Qed.

End WalkFacts.

(* ===================================================================== *)
(** ** The properties of the two scripts *)
(* ===================================================================== *)

Import ReFacts HeadingFacts ComplexityFacts WalkFacts PyFloat.

(** C1. The issues of a document are those of the level jumps of its
    headings: a heading is reported exactly when it is not the first one
    and lies more than one level below the heading just before it, whether
    or not that one was reported; every heading has a level from 1 to 6;
    a document has no issue exactly when no heading lies more than one
    level below the one before it, so that equal levels, lower levels,
    steps of one level and the first heading are never reported; a
    document with heading levels 2, 4, 4, 1 yields the one issue of the
    jump from 2 to 4. *)
Theorem heading_jumps_reported :
  (forall content,
     HeadingHierarchy.check_content content =
     Spec.jumps (findall2 HeadingHierarchy.heading_re content)) /\
  (forall content,
     Forall (fun h => 1 <= Spec.level h <= 6)
            (findall2 HeadingHierarchy.heading_re content)) /\
  (forall content,
     HeadingHierarchy.check_content content = [] <->
     Spec.gentle (findall2 HeadingHierarchy.heading_re content) = true) /\
  map Spec.level (findall2 HeadingHierarchy.heading_re Samples.levels_2441)
  = [2; 4; 4; 1] /\
  HeadingHierarchy.check_content Samples.levels_2441
  = [lit "Heading level jump: H2 to H4 - 'b'"].
Proof.
  assert (forall content,
            HeadingHierarchy.check_content content =
            Spec.jumps (findall2 HeadingHierarchy.heading_re content)) as H.
  { intros content. unfold HeadingHierarchy.check_content.
    rewrite loop_jumps by apply heading_levels.
    destruct (findall2 _ content); reflexivity. }
  split; [exact H|].
  split; [exact heading_levels|].
  split; [intros content; rewrite H; apply jumps_nil|].
  split; vm_compute; reflexivity.
Qed.

(** C2. When the run of the complexity analyzer reaches its report, a file
    is among the flagged ones exactly when it is a selected markdown file
    whose score compares strictly greater than 50; a score of exactly 50
    is not flagged, and a file of ten heading lines has score 10.0 and is
    not flagged. *)
Theorem high_complexity_threshold :
  (forall docs high,
     MarkdownComplexity.collect docs = Ok high ->
     forall p st,
       In (p, st) high <->
       exists content,
         In (p, Some content) (selected docs) /\
         st = MarkdownComplexity.analyze_content content /\
         SFcompare (of_nat 50) (MarkdownComplexity.complexity st) = Some Lt) /\
  (forall st,
     MarkdownComplexity.complexity st = of_nat 50 ->
     MarkdownComplexity.is_high st = false) /\
  MarkdownComplexity.analyze_content (Samples.heading_lines 10)
  = MarkdownComplexity.Stats 10 0 0 0 (of_nat 10) /\
  MarkdownComplexity.is_high
    (MarkdownComplexity.analyze_content (Samples.heading_lines 10)) = false.
Proof.
  split; [|split; [|split; vm_compute; reflexivity]].
  - intros docs high Hc p st.
    apply complexity_collect in Hc. destruct Hc as (files & Hsel & ->).
    assert (forall x, MarkdownComplexity.is_high x = true <->
              SFcompare (of_nat 50) (MarkdownComplexity.complexity x) = Some Lt)
      as Hhigh.
    { intros x. unfold MarkdownComplexity.is_high, gtb, SFltb.
      destruct (SFcompare _ _) as [[| |]|]; split; congruence. }
    rewrite in_flat_map. split.
    + intros ([p' c] & Hin & Hh). unfold Spec.high_of in Hh. cbn [fst snd] in Hh.
      destruct (MarkdownComplexity.is_high _) eqn:E; [|contradiction].
      destruct Hh as [Hh|[]]. inversion Hh; subst.
      exists c. rewrite Hsel, texts_of_inv. repeat split; auto.
      apply Hhigh. exact E.
    + intros (c & Hin & -> & Hgt). rewrite Hsel, texts_of_inv in Hin.
      exists (p, c). split; [exact Hin|].
      unfold Spec.high_of. cbn [fst snd].
      apply Hhigh in Hgt. rewrite Hgt. left. reflexivity.
  - intros st Hst. unfold MarkdownComplexity.is_high. rewrite Hst.
    vm_compute. reflexivity.
Qed.

(** The threshold on the sample tree: of its markdown files only the one
    with sixty headings is flagged. *)
Lemma high_complexity_threshold_witness :
  exists high,
    MarkdownComplexity.collect Samples.tree = Ok high /\
    (In (lit "docs/guides/deep/big.md",
         MarkdownComplexity.analyze_content (Samples.heading_lines 60)) high <->
     exists content,
       In (lit "docs/guides/deep/big.md", Some content)
          (selected Samples.tree) /\
       MarkdownComplexity.analyze_content (Samples.heading_lines 60)
       = MarkdownComplexity.analyze_content content /\
       SFcompare (of_nat 50)
         (MarkdownComplexity.complexity
            (MarkdownComplexity.analyze_content (Samples.heading_lines 60)))
       = Some Lt).
Proof.
  eexists. split; [vm_compute; reflexivity|].
  apply (proj1 high_complexity_threshold Samples.tree).
  vm_compute. reflexivity.
Defined.



(** C5. The number of code-block pairs is the number of triple-backtick
    occurrences, counted from left to right, divided by two and rounded
    down; three fences make one pair. *)
Theorem code_block_pairs_floor :
  (forall content,
     MarkdownComplexity.code_blocks
       (MarkdownComplexity.analyze_content content)
     = Spec.occurrences content / 2) /\
  Spec.occurrences Samples.three_fences = 3 /\
  MarkdownComplexity.code_blocks
    (MarkdownComplexity.analyze_content Samples.three_fences) = 1.
Proof.
  split; [|split; vm_compute; reflexivity].
  intros content. unfold MarkdownComplexity.analyze_content.
  cbn [MarkdownComplexity.code_blocks]. rewrite fence_count. reflexivity.
Qed.

(** C6, as stated. A line that starts with a marker followed by a tab is
    counted by the analyzer, although no space follows the marker; so is a
    line that holds a marker alone, where the line break follows it. *)
Lemma list_items_space_only_fails :
  MarkdownComplexity.lists
    (MarkdownComplexity.analyze_content Samples.tab_item)
  <> Spec.count_item_lines (only 32) Samples.tab_item /\
  MarkdownComplexity.lists
    (MarkdownComplexity.analyze_content (lit "-
"))
  <> Spec.count_item_lines (only 32) (lit "-
").
Proof. split; vm_compute; discriminate. Qed.

(** C6, amended. The list-item count is the number of lines which, leading
    white space ignored, start with [-], [*] or [+] followed by a white
    space character, which may be a space, a tab or the line break that
    ends the line. *)
Theorem list_items_whitespace :
  forall content,
    MarkdownComplexity.lists (MarkdownComplexity.analyze_content content)
    = Spec.count_item_lines space content.
Proof.
  intros content. unfold MarkdownComplexity.analyze_content.
  cbn [MarkdownComplexity.lists]. apply list_count.
Qed.

(** C7. The files that either script opens are the files of the tree under
    [docs], at any depth, whose name ends with [.md], and no other; when
    the loop of a script ends, its result is made of what each of these
    files contributes, in the order of the walk. *)
Theorem md_files_selected :
  forall docs,
    (forall p d,
       In (p, d) (selected docs) <->
       exists root name,
         Spec.located (lit "docs") docs root name d /\
         endswith name (lit ".md") = true /\ p = join root name) /\
    (forall all_issues,
       HeadingHierarchy.collect docs = Ok all_issues <->
       exists files,
         selected docs = Spec.texts_of files /\
         all_issues = flat_map Spec.issues_of files) /\
    (forall high_complexity_files,
       MarkdownComplexity.collect docs = Ok high_complexity_files <->
       exists files,
         selected docs = Spec.texts_of files /\
         high_complexity_files = flat_map Spec.high_of files).
Proof.
  intros docs. split; [|split].
  - intros p d. apply selected_spec.
  - intros r. apply hierarchy_collect.
  - intros r. apply complexity_collect.
Qed.

(** C9. A line made of one to six hashes alone is still a heading: the
    white space of the pattern takes the line break, and the title is the
    text of the next line. Such a heading takes part in the detection of
    level jumps. *)
Theorem lone_hashes_heading :
  (forall k title,
     1 <= k <= 6 ->
     match title with x :: _ => isspace x = false | [] => False end ->
     Forall (fun c => c <> NL) title ->
     findall2 HeadingHierarchy.heading_re (Spec.hashes k ++ NL :: title)
     = [(Spec.hashes k, title)]) /\
  findall2 HeadingHierarchy.heading_re Samples.lone_hashes
  = [(lit "#", lit "A"); (lit "###", lit "B")] /\
  HeadingHierarchy.check_content Samples.lone_hashes
  = [lit "Heading level jump: H1 to H3 - 'B'"].
Proof.
  split; [|split; vm_compute; reflexivity].
  intros k title. apply lone_hashes_found.
Qed.

(** Three hashes alone above a title. *)
Lemma lone_hashes_heading_witness :
  findall2 HeadingHierarchy.heading_re (Spec.hashes 3 ++ NL :: lit "Title")
  = [(Spec.hashes 3, lit "Title")].
Proof.
  apply (proj1 lone_hashes_heading 3 (lit "Title")).
  - lia.
  - reflexivity.
  - vm_compute. repeat constructor; discriminate.
Defined.

(** C10. Every link that the analyzer counts lies within one line: no
    match of the link pattern holds a line break. Brackets closed on one
    line with the parentheses on the next, or a line break inside the
    brackets or the parentheses, make no link. *)
Theorem links_within_one_line :
  (forall content,
     MarkdownComplexity.links (MarkdownComplexity.analyze_content content)
     = List.length (findall0 MarkdownComplexity.link_re content) /\
     Forall (fun m => ~ In NL m)
            (findall0 MarkdownComplexity.link_re content)) /\
  map (fun s => MarkdownComplexity.links
                  (MarkdownComplexity.analyze_content s))
      [lit "[a](b)"; lit "[a]
(b)"; lit "[a
b](c)"; lit "[a](b
c)"]
  = [1; 0; 0; 0].
Proof.
  split; [|vm_compute; reflexivity].
  intros content. split; [reflexivity|apply links_one_line].
Qed.

(* ===================================================================== *)
(** ** Further facts about the runs, the patterns and the walk *)
(* ===================================================================== *)

Module RunFacts.

(** The headings of a document as the checker reads them. *)
Lemma check_jumps content :
  HeadingHierarchy.check_content content =
  Spec.jumps (findall2 HeadingHierarchy.heading_re content).
Proof.
  unfold HeadingHierarchy.check_content.
  rewrite loop_jumps by apply heading_levels.
  destruct (findall2 _ content); reflexivity.
Qed.

Lemma all_of_class (c : cls) (x : N) (l : str) :
  (forall y, c y = true -> y = x) ->
  Forall (fun y => c y = true) l -> l = repeat x (List.length l).
Proof.
  intros Hc. induction 1 as [|y t Hy _ IH]; [reflexivity|].
  simpl. rewrite (Hc _ Hy). f_equal. exact IH.
Qed.

(** A match of the heading pattern: hashes, and a title that is a
    non-empty piece of one line. *)
Lemma heading_shape prev s need n g :
  exec HeadingHierarchy.heading_re prev s need [] = Some (n, g) ->
  exists k title,
    g = [Spec.hashes k; title] /\ 1 <= k <= 6 /\
    title <> [] /\ Forall (fun c => c <> NL) title.
Proof.
  unfold HeadingHierarchy.heading_re. intros H.
  destruct (exec_cons_inv _ _ _ _ _ _ _ _ H) as (k0 & n0 & _ & _ & H0 & (-> & _)).
  clear H. simpl keeps in H0. cbv iota in H0.
  destruct (exec_cons_inv _ _ _ _ _ _ _ _ H0) as (k1 & n1 & _ & L1 & H1 & B1).
  clear H0. simpl keeps in H1. cbv iota in H1. simpl atom_of in B1.
  destruct (exec_cons_inv _ _ _ _ _ _ _ _ H1) as (k2 & n2 & _ & _ & H2 & _).
  clear H1. simpl keeps in H2. cbv iota in H2.
  destruct (exec_cons_inv _ _ _ _ _ _ _ _ H2) as (k3 & n3 & _ & L3 & H3 & B3).
  clear H2. simpl keeps in H3. cbv iota in H3. simpl atom_of in B3.
  destruct (exec_cons_inv _ _ _ _ _ _ _ _ H3) as (k4 & n4 & _ & _ & H4 & _).
  clear H3. simpl keeps in H4. cbv iota in H4.
  simpl exec in H4.
  destruct (_ && _) in H4; [discriminate|].
  inversion H4; subst. simpl rev. simpl skipn in *.
  cbv iota in B1, B3. unfold cap, plus in *.
  exists k1, (firstn k3 (skipn k2 (skipn k1 s))).
  assert (Forall (fun y => only 35 y = true) (firstn k1 s)) as Hh
    by (apply run_firstn; lia).
  assert (Forall (fun y => dot y = true) (firstn k3 (skipn k2 (skipn k1 s))))
    as Hd by (apply run_firstn; lia).
  repeat split; try lia.
  - f_equal. unfold Spec.hashes.
    rewrite (all_of_class (only 35) 35%N (firstn k1 s)) at 1.
    + rewrite length_firstn, Nat.min_l by lia. reflexivity.
    + intros y Hy. apply N.eqb_eq. exact Hy.
    + exact Hh.
  - intros E. apply (f_equal (@List.length N)) in E.
    rewrite length_firstn in E. simpl in E. lia.
  - eapply Forall_impl; [|exact Hd]. intros c Hc ->. discriminate.
Qed.

Lemma headings_shape content :
  Forall (fun h => exists k, fst h = Spec.hashes k /\ 1 <= k <= 6 /\
                   snd h <> [] /\ Forall (fun c => c <> NL) (snd h))
         (findall2 HeadingHierarchy.heading_re content).
Proof.
  unfold findall2, finditer. apply Forall_map.
  apply scan_Forall. intros prev s need n g H.
  destruct (heading_shape _ _ _ _ _ H) as (k & title & -> & Hk & Ht & Hnl).
  exists k. simpl. auto.
Qed.

Lemma level_hashes k title : Spec.level (Spec.hashes k, title) = k.
Proof. unfold Spec.level, Spec.hashes. simpl. apply repeat_length. Qed.

(** What the jumps of a list of headings are made of. *)
Lemma jumps_inv hs issue :
  In issue (Spec.jumps hs) ->
  exists a b,
    In a hs /\ In b hs /\
    Spec.level a + 2 <= Spec.level b /\
    issue = HeadingHierarchy.issue_text (Spec.level a) (Spec.level b) (snd b).
Proof.
  induction hs as [|a t IH]; [intros []|].
  destruct t as [|b t']; [intros []|].
  cbn [Spec.jumps]. intros H. apply in_app_or in H. destruct H as [H|H].
  - destruct (Nat.ltb_spec (Spec.level a + 1) (Spec.level b)) as [Hlt|Hge];
      [|destruct H].
    destruct H as [<-|[]]. exists a, b. simpl. repeat split; auto. lia.
  - destruct (IH H) as (a' & b' & Ha & Hb & Hl & He).
    exists a', b'. repeat split; auto; right; assumption.
Qed.

Lemma jumps_length hs : List.length (Spec.jumps hs) <= List.length hs - 1.
Proof.
  induction hs as [|a t IH]; [simpl; lia|].
  destruct t as [|b t']; [simpl; lia|].
  cbn [Spec.jumps]. rewrite length_app.
  destruct (Spec.level a + 1 <? Spec.level b); simpl in *; lia.
Qed.


Lemma flat_map_nil A B (f : A -> list B) l :
  flat_map f l = [] <-> Forall (fun x => f x = []) l.
Proof.
  induction l as [|x t IH]; simpl.
  - split; [constructor|reflexivity].
  - split.
    + intros H. apply app_eq_nil in H. destruct H as (Hx & Ht).
      constructor; [exact Hx|apply IH; exact Ht].
    + intros H. inversion H; subst. rewrite H2. simpl. apply IH. exact H3.
Qed.

(** A listing of selected files either reads in full or holds a file that
    cannot be read. *)
Lemma texts_or_unreadable (l : list (str * option str)) :
  (exists files, l = Spec.texts_of files) \/ (exists p, In (p, None) l).
Proof.
  induction l as [|[p [c|]] t IH].
  - left. exists []. reflexivity.
  - destruct IH as [(files & ->)|(q & Hq)].
    + left. exists ((p, c) :: files). reflexivity.
    + right. exists q. right. exact Hq.
  - right. exists p. left. reflexivity.
Qed.

Lemma texts_all_readable files p : ~ In (p, None) (Spec.texts_of files).
Proof.
  unfold Spec.texts_of. rewrite in_map_iff.
  intros ([q c] & H & _). discriminate.
Qed.

Lemma hierarchy_raise docs :
  HeadingHierarchy.collect docs = Raise <-> exists p, In (p, None) (selected docs).
Proof.
  split.
  - intros H. destruct (texts_or_unreadable (selected docs))
      as [(files & Hf)|Hn]; [|exact Hn].
    assert (HeadingHierarchy.collect docs
            = Ok (flat_map Spec.issues_of files)) as E
      by (apply hierarchy_collect; exists files; auto).
    congruence.
  - intros (p & Hp).
    destruct (HeadingHierarchy.collect docs) as [r|] eqn:E; [|reflexivity].
    apply hierarchy_collect in E. destruct E as (files & Hf & _).
    rewrite Hf in Hp. destruct (texts_all_readable _ _ Hp).
Qed.

Lemma complexity_raise docs :
  MarkdownComplexity.collect docs = Raise <->
  exists p, In (p, None) (selected docs).
Proof.
  split.
  - intros H. destruct (texts_or_unreadable (selected docs))
      as [(files & Hf)|Hn]; [|exact Hn].
    assert (MarkdownComplexity.collect docs
            = Ok (flat_map Spec.high_of files)) as E
      by (apply complexity_collect; exists files; auto).
    congruence.
  - intros (p & Hp).
    destruct (MarkdownComplexity.collect docs) as [r|] eqn:E; [|reflexivity].
    apply complexity_collect in E. destruct E as (files & Hf & _).
    rewrite Hf in Hp. destruct (texts_all_readable _ _ Hp).
Qed.

Lemma unreadable_located docs :
  (exists p, In (p, None) (selected docs)) <->
  exists root name,
    Spec.located (lit "docs") docs root name None /\
    endswith name (lit ".md") = true.
Proof.
  split.
  - intros (p & Hp). apply selected_spec in Hp.
    destruct Hp as (root & name & Hl & Hm & _). eauto.
  - intros (root & name & Hl & Hm). exists (join root name).
    apply selected_spec. eauto.
Qed.

(** When the heading checker exits with code 0. *)
Lemma hierarchy_exit0 :
  forall docs out,
    HeadingHierarchy.main docs = Exit out 0 <->
    out = [HeadingHierarchy.tick ++ lit " All heading hierarchies are correct"]
    /\ exists files,
         selected docs = Spec.texts_of files /\
         Forall (fun f =>
                   Spec.gentle (findall2 HeadingHierarchy.heading_re (snd f))
                   = true) files.
Proof.
  intros docs out.
  assert (forall files,
            flat_map Spec.issues_of files = [] <->
            Forall (fun f =>
                      Spec.gentle (findall2 HeadingHierarchy.heading_re (snd f))
                      = true) files) as Hnil.
  { intros files. rewrite flat_map_nil. split; apply Forall_impl; intros f.
    - unfold Spec.issues_of. intros H. apply map_eq_nil in H.
      rewrite check_jumps in H. apply jumps_nil. exact H.
    - intros H. unfold Spec.issues_of. rewrite check_jumps.
      apply jumps_nil in H. rewrite H. reflexivity. }
  unfold HeadingHierarchy.main. split.
  - destruct (HeadingHierarchy.collect docs) as [r|] eqn:E; [|discriminate].
    apply hierarchy_collect in E. destruct E as (files & Hsel & ->).
    destruct (flat_map Spec.issues_of files) as [|x l] eqn:Ef; simpl;
      intros H; inversion H; subst.
    split; [reflexivity|]. exists files. split; [exact Hsel|].
    apply Hnil. exact Ef.
  - intros (-> & files & Hsel & Hall).
    replace (HeadingHierarchy.collect docs)
      with (Ok (flat_map Spec.issues_of files))
      by (symmetry; apply hierarchy_collect; exists files; auto).
    apply Hnil in Hall. rewrite Hall. reflexivity.
Qed.

(** When the complexity analyzer exits with code 0. *)
Lemma complexity_exit0 :
  forall docs out,
    MarkdownComplexity.main docs = Exit out 0 <->
    out = [MarkdownComplexity.tick
           ++ lit " All files have reasonable complexity"]
    /\ exists files,
         selected docs = Spec.texts_of files /\
         Forall (fun f =>
                   MarkdownComplexity.is_high
                     (MarkdownComplexity.analyze_content (snd f)) = false)
                files.
Proof.
  intros docs out.
  assert (forall files,
            flat_map Spec.high_of files = [] <->
            Forall (fun f =>
                      MarkdownComplexity.is_high
                        (MarkdownComplexity.analyze_content (snd f)) = false)
                   files) as Hnil.
  { intros files. rewrite flat_map_nil. split; apply Forall_impl; intros f;
      unfold Spec.high_of; cbv zeta;
      destruct (MarkdownComplexity.is_high _); congruence. }
  unfold MarkdownComplexity.main. split.
  - destruct (MarkdownComplexity.collect docs) as [r|] eqn:E; [|discriminate].
    apply complexity_collect in E. destruct E as (files & Hsel & ->).
    destruct (flat_map Spec.high_of files) as [|x l] eqn:Ef; simpl;
      intros H; inversion H; subst.
    split; [reflexivity|]. exists files. split; [exact Hsel|].
    apply Hnil. exact Ef.
  - intros (-> & files & Hsel & Hall).
    replace (MarkdownComplexity.collect docs)
      with (Ok (flat_map Spec.high_of files))
      by (symmetry; apply complexity_collect; exists files; auto).
    apply Hnil in Hall. rewrite Hall. reflexivity.
Qed.

End RunFacts.

Module HashFacts.

Import Notions.

Lemma cnth_cons l ls : cnth (l :: ls) = (if starts_hash l then 1 else 0) + cnth ls.
Proof. unfold cnth. simpl. destruct (starts_hash l); reflexivity. Qed.

Lemma cnth_tl l : cnth (tl l) <= cnth l.
Proof. destruct l as [|x t]; [simpl; lia|]. rewrite cnth_cons. simpl. lia. Qed.

Lemma run_hash_head s :
  starts_hash s = (1 <=? run (only 35) s).
Proof.
  destruct s as [|x t]; [reflexivity|]. simpl. unfold only.
  destruct (x =? 35)%N; reflexivity.
Qed.

(** The counting pattern matches at the start of a line that starts with a
    hash, and takes up to six hashes. *)
Lemma count_exec prev s need :
  exec MarkdownComplexity.heading_re prev s need [] =
  if at_bol prev && starts_hash s
  then Some (Nat.min 6 (run (only 35) s), [])
  else None.
Proof.
  unfold MarkdownComplexity.heading_re. rewrite exec_cons. cbn [atom_of].
  destruct (at_bol prev); [|reflexivity]. cbn [andb].
  unfold cont at 1. rewrite advance_0. cbn [skipn keeps prev_after].
  rewrite exec_cons. cbn [atom_of cap]. cbv zeta.
  rewrite run_hash_head. set (r := run (only 35) s).
  destruct (Nat.leb_spec 1 r) as [Hr|Hr].
  - replace (Nat.min 6 r <? 1) with false by (symmetry; apply Nat.ltb_ge; lia).
    apply first_down_first.
    replace (1 + (Nat.min 6 r - 1)) with (Nat.min 6 r) by lia.
    unfold cont. cbn [exec keeps].
    replace (Nat.min 6 r =? 0) with false by (symmetry; apply Nat.eqb_neq; lia).
    rewrite andb_false_r. cbn [advance rev]. rewrite Nat.add_0_r. reflexivity.
  - replace (Nat.min 6 r <? 1) with true by (symmetry; apply Nat.ltb_lt; lia).
    reflexivity.
Qed.

Lemma count_min_len : 0 < min_len MarkdownComplexity.heading_re.
Proof. cbv. lia. Qed.

Lemma tl_lines_cons x t :
  (x =? NL)%N = false -> tl (Spec.lines (x :: t)) = tl (Spec.lines t).
Proof.
  intros H. rewrite lines_cons, H. destruct (Spec.lines t); reflexivity.
Qed.

Lemma tl_lines_skipn : forall k s,
  Forall (fun c => (c =? NL)%N = false) (firstn k s) ->
  tl (Spec.lines (skipn k s)) = tl (Spec.lines s).
Proof.
  induction k as [|k IH]; intros s H; [reflexivity|].
  destruct s as [|x t]; [reflexivity|].
  simpl in H. inversion H; subst. simpl skipn.
  rewrite IH by assumption. symmetry. apply tl_lines_cons. assumption.
Qed.

Lemma prev_after_mid x k t :
  k <= List.length t ->
  (x =? NL)%N = false ->
  Forall (fun c => (c =? NL)%N = false) (firstn k t) ->
  at_bol (prev_after (Some x) k t) = false.
Proof.
  intros Hk Hx Hall. destruct k as [|k]; [exact Hx|].
  simpl. destruct (nth_error t k) as [y|] eqn:E.
  - simpl. rewrite Forall_forall in Hall. apply Hall.
    apply nth_error_In with (n := k).
    rewrite nth_error_firstn.
    replace (k <? S k) with true by (symmetry; apply Nat.ltb_lt; lia).
    exact E.
  - apply nth_error_None in E. lia.
Qed.

Lemma hash_not_nl c : only 35 c = true -> (c =? NL)%N = false.
Proof. unfold only. intros H. apply N.eqb_eq in H. subst. reflexivity. Qed.

(** The scan of the counting pattern reports one match for every line that
    starts with a hash. *)
Lemma count_scan : forall n s prev,
  List.length s <= n ->
  List.length (scan MarkdownComplexity.heading_re prev 0 s) = hash_lines_ahead prev s.
Proof.
  unfold hash_lines_ahead.
  induction n as [|n IH]; intros s prev Hn.
  - destruct s; [|simpl in Hn; lia]. rewrite scan_end by apply count_min_len.
    destruct (at_bol prev); reflexivity.
  - destruct s as [|x t]; [rewrite scan_end by apply count_min_len;
                           destruct (at_bol prev); reflexivity|].
    simpl in Hn. rewrite scan_nonempty by apply count_min_len.
    rewrite count_exec. destruct (at_bol prev); cbn [andb].
    + destruct (starts_hash (x :: t)) eqn:Hh.
      * simpl in Hh. apply N.eqb_eq in Hh. subst x.
        set (m := Nat.min 6 (run (only 35) (35%N :: t))).
        assert (1 <= m <= S (run (only 35) t)) as Hm.
        { unfold m. cbn [run]. change (only 35 35%N) with true. cbv iota. lia. }
        pose proof (run_le (only 35) t) as Hrl.
        assert (Forall (fun c => (c =? NL)%N = false) (firstn (pred m) t)) as Hall.
        { eapply Forall_impl; [apply hash_not_nl|].
          apply run_firstn. lia. }
        cbn [List.length]. rewrite scan_skip by lia.
        rewrite IH by (rewrite length_skipn; lia).
        rewrite prev_after_mid by (auto; lia).
        rewrite tl_lines_skipn by exact Hall.
        rewrite lines_cons. change (35 =? NL)%N with false. cbv iota.
        destruct (Spec.lines t); rewrite cnth_cons; reflexivity.
      * rewrite IH by lia. rewrite lines_cons. unfold at_bol.
        destruct (x =? NL)%N eqn:Ex.
        -- apply N.eqb_eq in Ex. subst. rewrite cnth_cons. reflexivity.
        -- simpl in Hh.
           destruct (Spec.lines t); rewrite cnth_cons; simpl; rewrite Hh;
             reflexivity.
    + rewrite IH by lia. rewrite lines_cons. unfold at_bol.
      destruct (x =? NL)%N; [reflexivity|].
      destruct (Spec.lines t); reflexivity.
Qed.

Lemma count_headings content :
  List.length (findall0 MarkdownComplexity.heading_re content) = count_hash_lines content.
Proof.
  unfold findall0, finditer. rewrite length_map.
  apply (count_scan (List.length content)). lia.
Qed.

Lemma cnth_lines_hash t :
  cnth (Spec.lines (35%N :: t)) = S (cnth (tl (Spec.lines t))).
Proof.
  rewrite lines_cons. change (35 =? NL)%N with false. cbv iota.
  destruct (Spec.lines t); rewrite cnth_cons; reflexivity.
Qed.

(** One character on, no more lines that start with a hash are ahead. *)
Lemma ahead_step prev x t :
  hash_lines_ahead (Some x) t = cnth (tl (Spec.lines (x :: t))) /\
  hash_lines_ahead (Some x) t <= hash_lines_ahead prev (x :: t).
Proof.
  assert (hash_lines_ahead (Some x) t = cnth (tl (Spec.lines (x :: t)))) as E.
  { unfold hash_lines_ahead, at_bol. rewrite lines_cons.
    destruct (x =? NL)%N; [reflexivity|].
    destruct (Spec.lines t); reflexivity. }
  split; [exact E|]. rewrite E. unfold hash_lines_ahead.
  destruct (at_bol prev); [apply cnth_tl|lia].
Qed.

(** A match of the pattern of the hierarchy checker starts a line, with a
    hash. *)
Lemma hierarchy_exec_start prev s need n g :
  exec HeadingHierarchy.heading_re prev s need [] = Some (n, g) ->
  at_bol prev = true /\ starts_hash s = true.
Proof.
  unfold HeadingHierarchy.heading_re. intros H.
  destruct (exec_cons_inv _ _ _ _ _ _ _ _ H) as (k0 & n0 & _ & _ & H0 & (-> & Hb)).
  split; [exact Hb|].
  destruct (exec_cons_inv _ _ _ _ _ _ _ _ H0) as (k1 & n1 & _ & _ & _ & B1).
  simpl atom_of in B1. cbv iota in B1. simpl skipn in B1.
  rewrite run_hash_head. apply Nat.leb_le.
  pose proof (cap_le (Some 6) (run (only 35) s)). lia.
Qed.

(** The hierarchy checker finds at most one heading for every line that
    starts with a hash and that the scan can still reach. *)
Lemma hierarchy_scan_bound : forall s prev skip,
  List.length (scan HeadingHierarchy.heading_re prev skip s) <=
  match skip with
  | 0 => hash_lines_ahead prev s
  | S _ => cnth (tl (Spec.lines s))
  end.
Proof.
  induction s as [|x t IH]; intros prev skip.
  - rewrite scan_end by apply heading_min_len. simpl. lia.
  - destruct skip as [|k].
    + rewrite scan_nonempty by apply heading_min_len.
      destruct (exec _ prev (x :: t) false []) as [[n g]|] eqn:E.
      * apply hierarchy_exec_start in E. destruct E as (Hb & Hh).
        simpl in Hh. apply N.eqb_eq in Hh. subst x.
        cbn [List.length]. unfold hash_lines_ahead at 1. rewrite Hb.
        assert (List.length (scan HeadingHierarchy.heading_re (Some 35%N)
                                  (pred n) t) <= cnth (tl (Spec.lines t))) as Hs.
        { specialize (IH (Some 35%N) (pred n)).
          destruct (pred n); [|exact IH].
          unfold hash_lines_ahead in IH. exact IH. }
        rewrite cnth_lines_hash. lia.
      * specialize (IH (Some x) 0).
        pose proof (proj2 (ahead_step prev x t)). lia.
    + simpl scan. specialize (IH (Some x) k).
      destruct (ahead_step prev x t) as (E & _).
      destruct k as [|k']; [lia|].
      pose proof (cnth_tl (Spec.lines t)).
      destruct (x =? NL)%N eqn:Ex.
      * rewrite lines_cons, Ex. cbn [tl]. lia.
      * rewrite tl_lines_cons by exact Ex. lia.
Qed.

End HashFacts.

Module LinkShape.

Import MarkdownComplexity.

Lemma first_up_least A (f : nat -> option A) d : forall lo x,
  first_up f lo d = Some x ->
  exists k, lo <= k <= lo + d /\ f k = Some x /\
            forall j, lo <= j < k -> f j = None.
Proof.
  induction d as [|d IH]; intros lo x; simpl.
  - destruct (f lo) eqn:E; [|discriminate].
    intros H; inversion H; subst. exists lo. repeat split; auto; lia.
  - destruct (f lo) eqn:E.
    + intros H; inversion H; subst. exists lo. repeat split; auto; lia.
    + intros H. destruct (IH _ _ H) as (k & Hk & Hf & Hmin).
      exists k. repeat split; auto; try lia.
      intros j Hj. destruct (Nat.eq_dec j lo) as [->|Hne]; [exact E|].
      apply Hmin. lia.
Qed.

(** The end of the link pattern: the shortest run of characters up to the
    first closing parenthesis. *)
Lemma link_tail prev u need gs n g :
  exec [Plain (lazy_star dot); Plain (Chr (only 41))] prev u need gs
  = Some (n, g) ->
  exists b rest,
    u = b ++ 41%N :: rest /\ n = List.length b + 1 /\
    ~ In NL b /\ ~ In 41%N b /\ g = rev gs.
Proof.
  rewrite exec_cons. cbn [atom_of lazy_star cap]. cbv zeta.
  replace (run dot u <? 0) with false by (symmetry; apply Nat.ltb_ge; lia).
  rewrite Nat.sub_0_r. intros H.
  apply first_up_least in H. destruct H as (k & Hk & Hf & Hmin).
  assert (forall j, cont (Plain (lazy_star dot)) [Plain (Chr (only 41))]
                      prev u need gs j =
                    match skipn j u with
                    | x :: _ => if only 41 x then Some (j + 1, rev gs) else None
                    | [] => None
                    end) as Hcont.
  { intros j. unfold cont. rewrite exec_cons. cbn [atom_of keeps].
    destruct (skipn j u) as [|x r]; [reflexivity|].
    destruct (only 41 x); [|reflexivity].
    unfold cont. cbn [exec keeps]. rewrite !andb_false_r. reflexivity. }
  rewrite Hcont in Hf.
  destruct (skipn k u) as [|x r] eqn:Ek; [discriminate|].
  destruct (only 41 x) eqn:Ex; [|discriminate].
  apply N.eqb_eq in Ex. subst x. inversion Hf; subst. clear Hf.
  exists (firstn k u), r.
  assert (k <= List.length u) as Hlen
    by (pose proof (run_le dot u); lia).
  repeat split.
  - rewrite <- Ek. symmetry. apply firstn_skipn.
  - rewrite length_firstn. lia.
  - intros Hin. assert (Forall (fun c => dot c = true) (firstn k u)) as Hd
      by (apply run_firstn; lia).
    rewrite Forall_forall in Hd. apply Hd in Hin. discriminate.
  - intros Hin. apply In_nth_error in Hin. destruct Hin as (j & Hj).
    assert (j < k) as Hjk.
    { assert (j < List.length (firstn k u)) as Hl
        by (apply nth_error_Some; congruence).
      rewrite length_firstn in Hl. lia. }
    rewrite nth_error_firstn in Hj.
    replace (j <? k) with true in Hj by (symmetry; apply Nat.ltb_lt; lia).
    specialize (Hmin j ltac:(lia)). rewrite Hcont in Hmin.
    rewrite <- (firstn_skipn j u) in Hj.
    rewrite nth_error_app2 in Hj by (rewrite length_firstn; lia).
    rewrite length_firstn, Nat.min_l, Nat.sub_diag in Hj by lia.
    destruct (skipn j u) as [|y r']; [discriminate|].
    simpl in Hj. inversion Hj; subst. discriminate.
Qed.

(** A match of the link pattern: an opening bracket, a piece of a line, a
    closing bracket next to an opening parenthesis, a piece of a line
    without a closing parenthesis, and a closing parenthesis. *)
Lemma link_shape prev s need n g :
  exec link_re prev s need [] = Some (n, g) ->
  exists a b,
    firstn n s = 91%N :: a ++ 93%N :: 40%N :: b ++ [41%N] /\
    ~ In NL a /\ ~ In NL b /\ ~ In 41%N b.
Proof.
  unfold link_re. intros H.
  destruct (exec_cons_inv _ _ _ _ _ _ _ _ H)
    as (k0 & n0 & -> & _ & H0 & (-> & x & t & -> & Hx)).
  clear H. cbn [keeps skipn] in H0. cbv iota in H0.
  destruct (exec_cons_inv _ _ _ _ _ _ _ _ H0)
    as (k1 & n1 & -> & L1 & H1 & B1).
  clear H0. cbn [keeps] in H1. cbv iota in H1. cbn [atom_of lazy_star] in B1.
  destruct (exec_cons_inv _ _ _ _ _ _ _ _ H1)
    as (k2 & n2 & -> & _ & H2 & (-> & y & t2 & E2 & Hy)).
  clear H1. cbn [keeps] in H2. cbv iota in H2.
  destruct (exec_cons_inv _ _ _ _ _ _ _ _ H2)
    as (k3 & n3 & -> & _ & H3 & (-> & z & t3 & E3 & Hz)).
  clear H2. cbn [keeps] in H3. cbv iota in H3.
  rewrite E2 in E3. cbn [skipn] in E3. subst t2.
  rewrite E2 in H3. cbn [skipn] in H3.
  apply link_tail in H3. destruct H3 as (b & rest & -> & -> & Hb1 & Hb2 & _).
  apply N.eqb_eq in Hx, Hy, Hz. subst x y z.
  exists (firstn k1 t), b.
  split; [|split; [|split; assumption]].
  - cbn [Nat.add firstn]. f_equal.
    rewrite firstn_plus, E2. f_equal.
    cbn [Nat.add firstn]. do 2 f_equal.
    replace (List.length b + 1) with (List.length (b ++ [41%N]))
      by (rewrite length_app; reflexivity).
    change (b ++ 41%N :: rest) with (b ++ [41%N] ++ rest).
    rewrite app_assoc, firstn_app, firstn_all, Nat.sub_diag.
    rewrite firstn_0, app_nil_r. reflexivity.
  - intros Hin. assert (Forall (fun c => dot c = true) (firstn k1 t)) as Hd.
    { apply run_firstn. unfold cap in B1. lia. }
    rewrite Forall_forall in Hd. apply Hd in Hin. discriminate.
Qed.

Lemma links_shape content :
  Forall (fun m => exists a b,
            m = 91%N :: a ++ 93%N :: 40%N :: b ++ [41%N] /\
            ~ In NL a /\ ~ In NL b /\ ~ In 41%N b)
         (findall0 link_re content).
Proof.
  unfold findall0, finditer. apply Forall_map.
  apply scan_Forall. intros prev s need n g H. simpl.
  eapply link_shape. exact H.
Qed.

End LinkShape.

Module NoneFacts.

Import Notions.

Lemma in_skipn_in (x : N) k s : In x (skipn k s) -> In x s.
Proof.
  intros H. rewrite <- (firstn_skipn k s). apply in_or_app. right. exact H.
Qed.

Lemma run_pos c s : 1 <= run c s -> exists x t, s = x :: t /\ c x = true.
Proof.
  destruct s as [|x t]; simpl; [lia|].
  destruct (c x) eqn:E; [|lia]. eauto.
Qed.

(** A match holds a character of every class that the pattern demands. *)
Lemma exec_demands c : forall r prev s need gs n g,
  demands r c ->
  exec r prev s need gs = Some (n, g) ->
  exists x, In x s /\ c x = true.
Proof.
  induction r as [|nd rest IH]; intros prev s need gs n g (nd' & Hin & Hd) H.
  - destruct Hin.
  - destruct (exec_cons_inv _ _ _ _ _ _ _ _ H)
      as (k & n' & _ & _ & Hrest & Hk).
    destruct Hin as [<-|Hin].
    + destruct Hd as [Hd|(lo & hi & greedy & Hd & Hlo)]; rewrite Hd in Hk.
      * destruct Hk as (_ & x & t & -> & Hx). exists x. split; [left|]; auto.
      * pose proof (cap_le hi (run c s)).
        destruct (run_pos c s) as (x & t & -> & Hx); [lia|].
        exists x. split; [left|]; auto.
    + destruct (IH _ _ _ _ _ _ (ex_intro _ nd' (conj Hin Hd)) Hrest)
        as (x & Hx & Hc).
      exists x. split; [|exact Hc]. eapply in_skipn_in. exact Hx.
Qed.

(** A text without such a character has no match. *)
Lemma scan_demands r c :
  demands r c ->
  forall s prev skip,
    Forall (fun x => c x = false) s -> scan r prev skip s = [].
Proof.
  intros Hd.
  assert (forall s prev need,
            Forall (fun x => c x = false) s ->
            exec r prev s need [] = None) as Hnone.
  { intros s prev need Hs.
    destruct (exec r prev s need []) as [[n g]|] eqn:E; [|reflexivity].
    destruct (exec_demands c _ _ _ _ _ _ _ Hd E) as (x & Hx & Hc).
    rewrite Forall_forall in Hs. rewrite (Hs _ Hx) in Hc. discriminate. }
  induction s as [|x t IH]; intros prev skip Hs.
  - simpl. destruct skip; [|reflexivity]. rewrite Hnone by exact Hs. reflexivity.
  - inversion Hs; subst. destruct skip as [|k]; simpl.
    + rewrite Hnone by exact Hs. apply IH. assumption.
    + apply IH. assumption.
Qed.

Lemma findall0_demands r c content :
  demands r c -> Forall (fun x => c x = false) content ->
  findall0 r content = [].
Proof.
  intros Hd Hs. unfold findall0, finditer.
  rewrite (scan_demands r c Hd) by exact Hs. reflexivity.
Qed.

Lemma absent_only x (s : str) :
  ~ In x s -> Forall (fun y => only x y = false) s.
Proof.
  intros H. apply Forall_forall. intros y Hy. unfold only.
  apply N.eqb_neq. intros ->. contradiction.
Qed.

End NoneFacts.

Module TreeFacts.

Import Notions.

Lemma startswith_nil s : startswith s [] = true.
Proof. destruct s; reflexivity. Qed.

Lemma startswith_app s p t :
  startswith s p = true -> startswith (s ++ t) p = true.
Proof.
  revert s. induction p as [|y p IH]; intros s H; [apply startswith_nil|].
  destruct s as [|x s]; [discriminate|]. simpl in *.
  apply andb_true_iff in H. destruct H as (Hx & Hs).
  rewrite Hx. simpl. apply IH. exact Hs.
Qed.

Lemma endswith_app a b p :
  endswith b p = true -> endswith (a ++ b) p = true.
Proof.
  unfold endswith. intros H. rewrite rev_app_distr.
  apply startswith_app. exact H.
Qed.

(** A joined path ends as its last component does. *)
Lemma join_ends root name p :
  endswith name p = true -> endswith (join root name) p = true.
Proof.
  intros H. unfold join.
  destruct (startswith name (lit "/")); [exact H|].
  destruct (_ || _).
  - apply endswith_app. exact H.
  - rewrite app_assoc. apply endswith_app. exact H.
Qed.

Lemma join_below top name :
  below_docs top -> startswith name (lit "/") = false ->
  startswith (join top name) (lit "docs/") = true.
Proof.
  intros Ht Hn. unfold join. rewrite Hn.
  destruct Ht as [->|Ht].
  - change (lit "docs" ++ lit "/" ++ name) with (lit "docs/" ++ name).
    replace (_ || endswith (lit "docs") (lit "/")) with false by reflexivity.
    apply startswith_app. reflexivity.
  - destruct (_ || _); apply startswith_app; exact Ht.
Qed.

Lemma plain_in e l : forallb plain l = true -> In e l -> plain e = true.
Proof. intros H Hin. rewrite forallb_forall in H. apply H. exact Hin. Qed.

Lemma located_below_docs top listing root name d :
  Spec.located top listing root name d ->
  below_docs top -> forallb plain listing = true ->
  below_docs root /\ startswith name (lit "/") = false.
Proof.
  induction 1 as [top listing name d Hin
                 |top listing sub children root name d Hin _ IH];
    intros Ht Hp.
  - split; [exact Ht|]. apply (plain_in _ _ Hp) in Hin. simpl in Hin.
    apply negb_true_iff. exact Hin.
  - apply (plain_in _ _ Hp) in Hin. simpl in Hin.
    apply andb_true_iff in Hin. destruct Hin as (Hs & Hc).
    apply negb_true_iff in Hs. apply IH; [|exact Hc].
    right. apply join_below; assumption.
Qed.

Lemma select_app a b : select (a ++ b) = select a ++ select b.
Proof. unfold select. apply flat_map_app. Qed.

Lemma selected_select docs : selected docs = select (walk (lit "docs") docs).
Proof. reflexivity. Qed.

Lemma select_one root files :
  List.length (select [(root, files)]) = md_in files.
Proof.
  unfold select, md_in. simpl. rewrite app_nil_r.
  induction files as [|[n d] t IH]; [reflexivity|].
  simpl. destruct (endswith n (lit ".md")); simpl; rewrite IH; reflexivity.
Qed.

Lemma select_cons root files items :
  List.length (select ((root, files) :: items))
  = md_in files + List.length (select items).
Proof.
  change ((root, files) :: items) with ([(root, files)] ++ items).
  rewrite select_app, length_app, select_one. reflexivity.
Qed.

Lemma md_in_cons n d files :
  md_in ((n, d) :: files)
  = (if endswith n (lit ".md") then 1 else 0) + md_in files.
Proof.
  unfold md_in. cbn [filter fst].
  destruct (endswith n (lit ".md")); reflexivity.
Qed.

Lemma count_listing top l :
  Forall (fun e => forall top,
            List.length (select (walk_entry top e)) =
            match e with File _ _ => 0 | Dir _ _ => count_md e end) l ->
  md_in (files_of l) + List.length (select (flat_map (walk_entry top) l))
  = list_sum (map count_md l).
Proof.
  induction 1 as [|e t He _ IH]; [reflexivity|].
  cbn [flat_map map list_sum]. rewrite select_app, length_app, He.
  destruct e as [n d|n ch].
  - cbn [files_of count_md]. rewrite md_in_cons.
    change (list_sum (?x :: ?l)) with (x + list_sum l). lia.
  - cbn [files_of]. change (list_sum (?x :: ?l)) with (x + list_sum l). lia.
Qed.

Lemma count_entry e : forall top,
  List.length (select (walk_entry top e)) =
  match e with File _ _ => 0 | Dir _ _ => count_md e end.
Proof.
  induction e as [n d|n children IH] using entry_rect'; intros top;
    [reflexivity|].
  cbn [walk_entry]. cbv zeta. rewrite select_cons.
  rewrite (count_listing _ _ IH). reflexivity.
Qed.

Lemma files_of_prune l :
  files_of (flat_map prune l)
  = filter (fun f => endswith (fst f) (lit ".md")) (files_of l).
Proof.
  induction l as [|[n d|n ch] t IH]; [reflexivity| |].
  - cbn [flat_map prune files_of filter fst].
    destruct (endswith n (lit ".md")) eqn:E; simpl; rewrite IH; reflexivity.
  - cbn [flat_map prune files_of]. simpl. exact IH.
Qed.

Lemma select_filter root files items :
  select ((root, filter (fun f => endswith (fst f) (lit ".md")) files) :: items)
  = select ((root, files) :: items).
Proof.
  unfold select. cbn [flat_map fst snd]. f_equal.
  induction files as [|[n d] t IH]; [reflexivity|].
  cbn [filter fst]. destruct (endswith n (lit ".md")) eqn:E.
  - cbn [flat_map fst snd]. rewrite E, IH. reflexivity.
  - cbn [flat_map fst snd]. rewrite E. exact IH.
Qed.

Lemma select_cons_eq item a b :
  select a = select b -> select (item :: a) = select (item :: b).
Proof.
  intros H. change (item :: a) with ([item] ++ a).
  change (item :: b) with ([item] ++ b). rewrite !select_app, H. reflexivity.
Qed.

Lemma prune_listing top l :
  Forall (fun e => forall top,
            select (flat_map (walk_entry top) (prune e))
            = select (walk_entry top e)) l ->
  select (flat_map (walk_entry top) (flat_map prune l))
  = select (flat_map (walk_entry top) l).
Proof.
  induction 1 as [|e t He _ IH]; [reflexivity|].
  cbn [flat_map]. rewrite flat_map_app, !select_app, He, IH. reflexivity.
Qed.

Lemma prune_entry e : forall top,
  select (flat_map (walk_entry top) (prune e)) = select (walk_entry top e).
Proof.
  induction e as [n d|n children IH] using entry_rect'; intros top.
  - cbn [prune]. destruct (endswith n (lit ".md")); reflexivity.
  - cbn [prune flat_map walk_entry]. cbv zeta. rewrite app_nil_r.
    rewrite files_of_prune, select_filter.
    apply select_cons_eq. apply prune_listing. exact IH.
Qed.

Lemma all_entries (P : entry -> Prop) :
  (forall e, P e) -> forall l, Forall P l.
Proof. intros H l. apply Forall_forall. intros e _. apply H. Qed.

End TreeFacts.

Module BoundedFacts.

Import Notions MarkdownComplexity.

Lemma same_eq x y : same x y = true -> x = y.
Proof.
  destruct x as [s|s| |s m e], y as [s'|s'| |s' m' e']; simpl;
    try discriminate; intros H.
  - apply eqb_prop in H. congruence.
  - apply eqb_prop in H. congruence.
  - reflexivity.
  - apply andb_true_iff in H. destruct H as (H & He).
    apply andb_true_iff in H. destruct H as (Hs & Hm).
    apply eqb_prop in Hs. apply Pos.eqb_eq in Hm. apply Z.eqb_eq in He.
    congruence.
Qed.

Lemma forallb_upto f n :
  forallb f (upto n) = true -> forall k, k <= n -> f k = true.
Proof.
  intros H k Hk. rewrite forallb_forall in H. apply H.
  unfold upto. apply in_seq. lia.
Qed.

Lemma halves_checked : forallb (halves_row 60) (upto 50) = true.
Proof. vm_compute. reflexivity. Qed.

Lemma pairs_checked : forallb (pairs_row 160) (upto 15) = true.
Proof. vm_compute. reflexivity. Qed.

Lemma threshold_checked : forallb (threshold_row 220) (upto 100) = true.
Proof. vm_compute. reflexivity. Qed.

Lemma threshold_cell_eq p i a :
  threshold_cell p i a = true ->
  gtb (add (halves a) p) (of_nat 50) = (500 <? 5 * a + 3 * i).
Proof. unfold threshold_cell. apply eqb_prop. Qed.

(** Within the checked range the rounded score is above 50 exactly when
    the exact score is. *)
Lemma score_threshold h l c i :
  h <= 50 -> l <= 60 -> c <= 15 -> i <= 100 ->
  gtb (score h l c i) (of_nat 50)
  = (500 <? 10 * h + 5 * l + 20 * c + 3 * i).
Proof.
  intros Hh Hl Hc Hi.
  assert (add (of_nat h) (halves l) = halves (2 * h + l)) as H1.
  { apply same_eq.
    apply (forallb_upto (halves_cell (of_nat h) h) 60); [|exact Hl].
    apply (forallb_upto (halves_row 60) 50); [|exact Hh].
    exact halves_checked. }
  assert (add (halves (2 * h + l)) (of_nat (c * 2))
          = halves (2 * h + l + 4 * c)) as H2.
  { apply same_eq.
    apply (forallb_upto (pairs_cell (of_nat (c * 2)) c) 160); [|lia].
    apply (forallb_upto (pairs_row 160) 15); [|exact Hc].
    exact pairs_checked. }
  assert (threshold_cell (mul (of_nat i) three_tenths) i (2 * h + l + 4 * c)
          = true) as H3.
  { apply (forallb_upto (threshold_cell (mul (of_nat i) three_tenths) i) 220);
      [|lia].
    apply (forallb_upto (threshold_row 220) 100); [|exact Hi].
    exact threshold_checked. }
  apply threshold_cell_eq in H3.
  unfold score. fold (halves l). rewrite H1, H2, H3.
  f_equal. lia.
Qed.

(** The conversion of a count is never the negative zero. *)
Lemma of_nat_not_minus_zero n : of_nat n <> S754_zero true.
Proof.
  unfold of_nat, binary_normalize.
  destruct (Z.of_nat n) as [|m|m] eqn:E; [discriminate| |lia].
  unfold binary_round, binary_round_aux.
  destruct (shl_align _ _ _) as [mz ez].
  destruct (shr_fexp _ _ _ _ _) as [mrs e'].
  destruct (shr_fexp _ _ _ _ _) as [mrs' e''].
  destruct (shr_m mrs') as [|q|q]; try discriminate.
  destruct (Z.leb _ _); discriminate.
Qed.

Lemma add_plus_zero x : x <> S754_zero true -> add x (S754_zero false) = x.
Proof.
  intros H. destruct x as [[|]|s| |s m e]; try reflexivity. contradiction.
Qed.

(** With headings only, the score is the number of headings. *)
Lemma score_headings_only h : score h 0 0 0 = of_nat h.
Proof.
  assert (mul (of_nat 0) half = S754_zero false) as E1 by reflexivity.
  assert (mul (of_nat 0) three_tenths = S754_zero false) as E2 by reflexivity.
  assert (of_nat (0 * 2) = S754_zero false) as E3 by reflexivity.
  unfold score. rewrite E1, E2, E3.
  repeat rewrite (add_plus_zero (of_nat h)) by apply of_nat_not_minus_zero.
  reflexivity.
Qed.

End BoundedFacts.

Module JoinFacts.

Import Notions RunFacts.

Lemma forall_texts (P : str -> Prop) l :
  (exists files, l = Spec.texts_of files /\ Forall (fun f => P (snd f)) files)
  <-> Forall (fun f : str * option str =>
                exists content, snd f = Some content /\ P content) l.
Proof.
  split.
  - intros (files & -> & H). unfold Spec.texts_of. apply Forall_map.
    eapply Forall_impl; [|exact H]. intros [p c] Hc. exists c. auto.
  - induction 1 as [|[p d] t (c & Hd & Hc) _ (files & -> & Hf)].
    + exists []. split; [reflexivity|constructor].
    + simpl in Hd. subst d. exists ((p, c) :: files).
      split; [reflexivity|constructor; assumption].
Qed.

(** The heading checker passes exactly when every selected file is
    sound. *)
Lemma hierarchy_pass docs :
  (exists out, HeadingHierarchy.main docs = Exit out 0) <->
  Forall sound_headings (selected docs).
Proof.
  unfold sound_headings.
  rewrite <- (forall_texts
    (fun c => Spec.gentle (findall2 HeadingHierarchy.heading_re c) = true)).
  split.
  - intros (out & H). apply hierarchy_exit0 in H. tauto.
  - intros H. eexists. apply hierarchy_exit0. split; [reflexivity|exact H].
Qed.

Lemma complexity_pass docs :
  (exists out, MarkdownComplexity.main docs = Exit out 0) <->
  Forall moderate (selected docs).
Proof.
  unfold moderate.
  rewrite <- (forall_texts
    (fun c => MarkdownComplexity.is_high
                (MarkdownComplexity.analyze_content c) = false)).
  split.
  - intros (out & H). apply complexity_exit0 in H. tauto.
  - intros H. eexists. apply complexity_exit0. split; [reflexivity|exact H].
Qed.

Lemma located_app top l1 l2 root name d :
  Spec.located top (l1 ++ l2) root name d <->
  Spec.located top l1 root name d \/ Spec.located top l2 root name d.
Proof.
  split.
  - intros H. inversion H as [? ? ? ? Hin|? ? sub ch ? ? ? Hin Hl]; subst;
      apply in_app_or in Hin; destruct Hin as [Hin|Hin].
    + left. apply Spec.located_here. exact Hin.
    + right. apply Spec.located_here. exact Hin.
    + left. eapply Spec.located_below; eassumption.
    + right. eapply Spec.located_below; eassumption.
  - intros [H|H]; inversion H as [? ? ? ? Hin|? ? sub ch ? ? ? Hin Hl]; subst.
    + apply Spec.located_here. apply in_or_app. left. exact Hin.
    + eapply Spec.located_below; [apply in_or_app; left|]; eassumption.
    + apply Spec.located_here. apply in_or_app. right. exact Hin.
    + eapply Spec.located_below; [apply in_or_app; right|]; eassumption.
Qed.

(** Two listings side by side: the selected files of both. *)
Lemma selected_app docs1 docs2 f :
  In f (selected (docs1 ++ docs2)) <->
  In f (selected docs1) \/ In f (selected docs2).
Proof.
  destruct f as [p d]. rewrite !selected_spec. split.
  - intros (root & name & Hl & Hm & Hp). apply located_app in Hl.
    destruct Hl as [Hl|Hl]; [left|right]; eauto.
  - intros [(root & name & Hl & Hm & Hp)|(root & name & Hl & Hm & Hp)];
      exists root, name; rewrite located_app; auto.
Qed.

Lemma forall_selected_app (P : str * option str -> Prop) docs1 docs2 :
  Forall P (selected (docs1 ++ docs2)) <->
  Forall P (selected docs1) /\ Forall P (selected docs2).
Proof.
  rewrite !Forall_forall. split.
  - intros H. split; intros f Hf; apply H; apply selected_app; auto.
  - intros (H1 & H2) f Hf. apply selected_app in Hf.
    destruct Hf; auto.
Qed.


Lemma hierarchy_uncaught docs :
  HeadingHierarchy.main docs = Uncaught <->
  exists p, In (p, None) (selected docs).
Proof.
  rewrite <- hierarchy_raise. unfold HeadingHierarchy.main.
  destruct (HeadingHierarchy.collect docs) as [[|x l]|]; simpl;
    split; congruence.
Qed.

Lemma complexity_uncaught docs :
  MarkdownComplexity.main docs = Uncaught <->
  exists p, In (p, None) (selected docs).
Proof.
  rewrite <- complexity_raise. unfold MarkdownComplexity.main.
  destruct (MarkdownComplexity.collect docs) as [[|x l]|]; simpl;
    split; congruence.
Qed.

Lemma unreadable_app docs1 docs2 :
  (exists p, In (p, None) (selected (docs1 ++ docs2))) <->
  (exists p, In (p, None) (selected docs1)) \/
  (exists p, In (p, None) (selected docs2)).
Proof.
  split.
  - intros (p & H). apply selected_app in H. destruct H; eauto.
  - intros [(p & H)|(p & H)]; exists p; apply selected_app; auto.
Qed.

End JoinFacts.

(* ===================================================================== *)
(** ** Further properties of the two scripts *)
(* ===================================================================== *)

Import Notions RunFacts HashFacts LinkShape NoneFacts TreeFacts BoundedFacts
  JoinFacts.

(** X1. A run of either script ends with an uncaught exception exactly
    when some file of the tree whose name ends with [.md] cannot be read;
    files with another extension are never opened, so they cannot make a
    run fail. *)
Theorem uncaught_iff_unreadable_markdown :
  forall docs,
    (HeadingHierarchy.main docs = Uncaught <->
     exists root name,
       Spec.located (lit "docs") docs root name None /\
       endswith name (lit ".md") = true) /\
    (MarkdownComplexity.main docs = Uncaught <->
     exists root name,
       Spec.located (lit "docs") docs root name None /\
       endswith name (lit ".md") = true).
Proof.
  intros docs. rewrite <- unreadable_located. split.
  - rewrite <- hierarchy_raise. unfold HeadingHierarchy.main.
    destruct (HeadingHierarchy.collect docs) as [[|x l]|]; simpl;
      split; congruence.
  - rewrite <- complexity_raise. unfold MarkdownComplexity.main.
    destruct (MarkdownComplexity.collect docs) as [[|x l]|]; simpl;
      split; congruence.
Qed.

(** X2. The heading checker exits with code 0 exactly when every selected
    file can be read and in none of them a heading lies more than one
    level below the heading before it; it then prints the one line of
    success. *)
Theorem hierarchy_passes_iff :
  forall docs out,
    HeadingHierarchy.main docs = Exit out 0 <->
    out = [HeadingHierarchy.tick ++ lit " All heading hierarchies are correct"]
    /\ exists files,
         selected docs = Spec.texts_of files /\
         Forall (fun f =>
                   Spec.gentle (findall2 HeadingHierarchy.heading_re (snd f))
                   = true) files.
Proof. exact hierarchy_exit0. Qed.

(** X3. The complexity analyzer exits with code 0 exactly when every
    selected file can be read and none of them has a score above the
    threshold; it then prints the one line of success. *)
Theorem complexity_passes_iff :
  forall docs out,
    MarkdownComplexity.main docs = Exit out 0 <->
    out = [MarkdownComplexity.tick
           ++ lit " All files have reasonable complexity"]
    /\ exists files,
         selected docs = Spec.texts_of files /\
         Forall (fun f =>
                   MarkdownComplexity.is_high
                     (MarkdownComplexity.analyze_content (snd f)) = false)
                files.
Proof. exact complexity_exit0. Qed.

(** X4. Every issue of a document reports a jump from a level between 1
    and 4 to a level at least two deeper and at most 6, with the title of
    a heading of the document, which is a non-empty piece of one line; a
    document has fewer issues than headings. *)
Theorem issue_anatomy :
  forall content,
    List.length (HeadingHierarchy.check_content content)
    <= List.length (findall2 HeadingHierarchy.heading_re content) - 1 /\
    forall issue,
      In issue (HeadingHierarchy.check_content content) ->
      exists a b title,
        issue = HeadingHierarchy.issue_text a b title /\
        1 <= a /\ a + 2 <= b /\ b <= 6 /\
        title <> [] /\ ~ In NL title /\
        In (Spec.hashes b, title)
           (findall2 HeadingHierarchy.heading_re content).
Proof.
  intros content. rewrite check_jumps. split; [apply jumps_length|].
  intros issue Hin. apply jumps_inv in Hin.
  destruct Hin as (a & b & Ha & Hb & Hl & ->).
  pose proof (headings_shape content) as Hs. rewrite Forall_forall in Hs.
  destruct (Hs _ Ha) as (ka & Hfa & Hka & _).
  destruct (Hs _ Hb) as (kb & Hfb & Hkb & Hne & Hnl).
  destruct a as [ga ta], b as [gb tb]. simpl in *. subst.
  rewrite !level_hashes in *.
  exists ka, kb, tb. repeat split; auto; try lia.
  rewrite Forall_forall in Hnl. intros Hin. apply (Hnl _ Hin). reflexivity.
Qed.

(** The report of the heading checker that calls [exit(1)]: a header and
    then, for every issue of every selected file and for nothing else,
    the line made of the path of the file and the issue. *)
Lemma hierarchy_report_lines :
  forall docs out,
    HeadingHierarchy.main docs = Exit out 1 ->
    exists lines,
      out = (HeadingHierarchy.cross ++ lit " Heading hierarchy issues found:")
            :: lines /\
      lines <> [] /\
      forall line,
        In line lines <->
        exists p content issue,
          In (p, Some content) (selected docs) /\
          In issue (HeadingHierarchy.check_content content) /\
          line = lit "  - " ++ p ++ lit ": " ++ issue.
Proof.
  intros docs out. unfold HeadingHierarchy.main.
  destruct (HeadingHierarchy.collect docs) as [r|] eqn:E; [|discriminate].
  apply hierarchy_collect in E. destruct E as (files & Hsel & ->).
  destruct (flat_map Spec.issues_of files) as [|x l] eqn:Ef;
    unfold HeadingHierarchy.report; intros H; inversion H; subst. clear H.
  eexists. split; [reflexivity|]. split; [discriminate|].
  intros line.
  change (In line (map (fun issue => lit "  - " ++ issue) (x :: l)) <->
          exists p content issue,
            In (p, Some content) (selected docs) /\
            In issue (HeadingHierarchy.check_content content) /\
            line = lit "  - " ++ p ++ lit ": " ++ issue).
  rewrite <- Ef, in_map_iff. split.
  - intros (y & <- & Hy). apply in_flat_map in Hy.
    destruct Hy as ([p c] & Hf & Hy). unfold Spec.issues_of in Hy.
    apply in_map_iff in Hy. destruct Hy as (issue & <- & Hi).
    exists p, c, issue. rewrite Hsel, texts_of_inv. auto.
  - intros (p & c & issue & Hp & Hi & ->).
    rewrite Hsel, texts_of_inv in Hp.
    exists (p ++ lit ": " ++ issue). split; [reflexivity|].
    apply in_flat_map. exists (p, c). split; [exact Hp|].
    unfold Spec.issues_of. apply in_map_iff. exists issue. auto.
Qed.

(** The issue of the sample with levels 2, 4, 4, 1. *)
Lemma issue_anatomy_witness :
  exists a b title,
    lit "Heading level jump: H2 to H4 - 'b'"
    = HeadingHierarchy.issue_text a b title /\
    1 <= a /\ a + 2 <= b /\ b <= 6 /\
    title <> [] /\ ~ In NL title /\
    In (Spec.hashes b, title)
       (findall2 HeadingHierarchy.heading_re Samples.levels_2441).
Proof.
  apply (proj2 (issue_anatomy Samples.levels_2441)).
  vm_compute. left. reflexivity.
Defined.

(** X6. The heading count of the analyzer is the number of lines that
    start with a hash, whatever follows it: seven hashes or more, or a
    hash without a space after it, count as well. *)
Theorem heading_count_is_hash_lines :
  forall content,
    MarkdownComplexity.headings (MarkdownComplexity.analyze_content content)
    = count_hash_lines content.
Proof.
  intros content. unfold MarkdownComplexity.analyze_content.
  cbn [MarkdownComplexity.headings]. apply count_headings.
Qed.

(** X7. Every link that the analyzer counts is an opening bracket, a
    piece of one line, a closing bracket next to an opening parenthesis,
    a piece of one line without a closing parenthesis, and a closing
    parenthesis. *)
Theorem link_anatomy :
  forall content,
    Forall (fun m => exists a b,
              m = 91%N :: a ++ 93%N :: 40%N :: b ++ [41%N] /\
              ~ In NL a /\ ~ In NL b /\ ~ In 41%N b)
           (findall0 MarkdownComplexity.link_re content).
Proof. exact links_shape. Qed.

(** X8. For a file with at most 50 headings, 60 links, 15 code-block
    pairs and 100 list items, the rounding of the floating-point score
    never changes the verdict: the file is flagged exactly when
    [10*headings + 5*links + 20*code_blocks + 3*lists] exceeds 500. *)
Theorem threshold_matches_exact_score :
  forall content,
    MarkdownComplexity.headings
      (MarkdownComplexity.analyze_content content) <= 50 ->
    MarkdownComplexity.links
      (MarkdownComplexity.analyze_content content) <= 60 ->
    MarkdownComplexity.code_blocks
      (MarkdownComplexity.analyze_content content) <= 15 ->
    MarkdownComplexity.lists
      (MarkdownComplexity.analyze_content content) <= 100 ->
    MarkdownComplexity.is_high (MarkdownComplexity.analyze_content content)
    = (500 <? 10 * MarkdownComplexity.headings
                     (MarkdownComplexity.analyze_content content)
              + 5 * MarkdownComplexity.links
                      (MarkdownComplexity.analyze_content content)
              + 20 * MarkdownComplexity.code_blocks
                       (MarkdownComplexity.analyze_content content)
              + 3 * MarkdownComplexity.lists
                      (MarkdownComplexity.analyze_content content)).
Proof.
  intros content. unfold MarkdownComplexity.analyze_content.
  cbn [MarkdownComplexity.headings MarkdownComplexity.links
       MarkdownComplexity.code_blocks MarkdownComplexity.lists].
  unfold MarkdownComplexity.is_high. cbn [MarkdownComplexity.complexity].
  apply score_threshold.
Qed.

(** The sample of four headings is inside the range, and not flagged. *)
Lemma threshold_matches_exact_score_witness :
  MarkdownComplexity.is_high
    (MarkdownComplexity.analyze_content Samples.levels_2441)
  = (500 <? 10 * MarkdownComplexity.headings
                   (MarkdownComplexity.analyze_content Samples.levels_2441)
            + 5 * MarkdownComplexity.links
                    (MarkdownComplexity.analyze_content Samples.levels_2441)
            + 20 * MarkdownComplexity.code_blocks
                     (MarkdownComplexity.analyze_content Samples.levels_2441)
            + 3 * MarkdownComplexity.lists
                    (MarkdownComplexity.analyze_content Samples.levels_2441)).
Proof.
  apply (threshold_matches_exact_score Samples.levels_2441);
    vm_compute; repeat constructor.
Defined.

(** X9. A text without a hash has no heading for either script and no
    issue; a text that lacks one of the four characters of a link has no
    link; a text without a backtick has no code block; a text without
    [-], [*] and [+] has no list item. *)
Theorem nothing_without_trigger :
  forall content,
    (~ In 35%N content ->
     HeadingHierarchy.check_content content = [] /\
     MarkdownComplexity.headings
       (MarkdownComplexity.analyze_content content) = 0) /\
    (~ In 91%N content \/ ~ In 93%N content \/
     ~ In 40%N content \/ ~ In 41%N content ->
     MarkdownComplexity.links
       (MarkdownComplexity.analyze_content content) = 0) /\
    (~ In 96%N content ->
     MarkdownComplexity.code_blocks
       (MarkdownComplexity.analyze_content content) = 0) /\
    (~ In 45%N content /\ ~ In 42%N content /\ ~ In 43%N content ->
     MarkdownComplexity.lists
       (MarkdownComplexity.analyze_content content) = 0).
Proof.
  intros content.
  unfold MarkdownComplexity.analyze_content.
  cbn [MarkdownComplexity.headings MarkdownComplexity.links
       MarkdownComplexity.code_blocks MarkdownComplexity.lists].
  split; [|split; [|split]].
  - intros H. apply absent_only in H. split.
    + unfold HeadingHierarchy.check_content, findall2, finditer.
      rewrite (scan_demands HeadingHierarchy.heading_re (only 35)); auto.
      exists (Capture (Rep (only 35) 1 (Some 6) true)). split.
      * right. left. reflexivity.
      * right. exists 1, (Some 6), true. split; [reflexivity|lia].
    + rewrite (findall0_demands _ (only 35)); auto.
      exists (Plain (Rep (only 35) 1 (Some 6) true)). split.
      * right. left. reflexivity.
      * right. exists 1, (Some 6), true. split; [reflexivity|lia].
  - intros [H|[H|[H|H]]]; apply absent_only in H.
    + rewrite (findall0_demands _ (only 91)); auto.
      exists (Plain (Chr (only 91))). split; [left; reflexivity|left; reflexivity].
    + rewrite (findall0_demands _ (only 93)); auto.
      exists (Plain (Chr (only 93))).
      split; [right; right; left; reflexivity|left; reflexivity].
    + rewrite (findall0_demands _ (only 40)); auto.
      exists (Plain (Chr (only 40))).
      split; [do 3 right; left; reflexivity|left; reflexivity].
    + rewrite (findall0_demands _ (only 41)); auto.
      exists (Plain (Chr (only 41))).
      split; [do 5 right; left; reflexivity|left; reflexivity].
  - intros H. apply absent_only in H.
    rewrite (findall0_demands _ (only 96)); auto.
    exists (Plain (Chr (only 96))). split; [left; reflexivity|left; reflexivity].
  - intros (H1 & H2 & H3).
    rewrite (findall0_demands _ MarkdownComplexity.marker); auto.
    + exists (Plain (Chr MarkdownComplexity.marker)).
      split; [right; right; left; reflexivity|left; reflexivity].
    + apply Forall_forall. intros y Hy. unfold MarkdownComplexity.marker.
      destruct (N.eqb_spec y 45); [subst; contradiction|].
      destruct (N.eqb_spec y 42); [subst; contradiction|].
      destruct (N.eqb_spec y 43); [subst; contradiction|].
      reflexivity.
Qed.

(** A text of plain words. *)
Lemma nothing_without_trigger_witness :
  HeadingHierarchy.check_content (lit "plain words") = [] /\
  MarkdownComplexity.headings
    (MarkdownComplexity.analyze_content (lit "plain words")) = 0.
Proof.
  apply (proj1 (nothing_without_trigger (lit "plain words"))).
  vm_compute. intuition discriminate.
Defined.

(** X10. Every path that the scripts open ends with [.md]; when no name
    of the tree starts with a slash, it starts with [docs/]. *)
Theorem opened_paths_shape :
  forall docs p d,
    In (p, d) (selected docs) ->
    endswith p (lit ".md") = true /\
    (forallb plain docs = true -> startswith p (lit "docs/") = true).
Proof.
  intros docs p d H. apply selected_spec in H.
  destruct H as (root & name & Hloc & Hmd & ->). split.
  - apply join_ends. exact Hmd.
  - intros Hp.
    destruct (located_below_docs _ _ _ _ _ Hloc) as (Hr & Hn);
      [left; reflexivity|exact Hp|].
    apply join_below; assumption.
Qed.

(** The nested markdown file of the sample tree. *)
Lemma opened_paths_shape_witness :
  endswith (lit "docs/guides/deep/big.md") (lit ".md") = true /\
  (forallb plain Samples.tree = true ->
   startswith (lit "docs/guides/deep/big.md") (lit "docs/") = true).
Proof.
  apply (opened_paths_shape Samples.tree (lit "docs/guides/deep/big.md")
           (Some (Samples.heading_lines 60))).
  vm_compute. auto.
Defined.

(** X11. Every markdown file of the tree is opened once: the loops select
    as many files as the tree holds files whose name ends with [.md], at
    all depths together. *)
Theorem each_markdown_file_once :
  forall docs,
    List.length (selected docs) = list_sum (map count_md docs).
Proof.
  intros docs. rewrite selected_select. unfold walk.
  rewrite select_cons. apply count_listing.
  apply all_entries. exact count_entry.
Qed.

(** X12. Files with another extension never matter, wherever they are:
    without them the loops select the same files, and both scripts print
    the same and exit alike. *)
Theorem other_files_never_matter :
  forall docs,
    selected (flat_map prune docs) = selected docs /\
    HeadingHierarchy.main (flat_map prune docs) = HeadingHierarchy.main docs /\
    MarkdownComplexity.main (flat_map prune docs)
    = MarkdownComplexity.main docs.
Proof.
  intros docs.
  assert (selected (flat_map prune docs) = selected docs) as H.
  { rewrite !selected_select. unfold walk.
    rewrite files_of_prune, select_filter.
    apply select_cons_eq. apply prune_listing.
    apply all_entries. exact prune_entry. }
  split; [exact H|].
  unfold HeadingHierarchy.main, MarkdownComplexity.main,
    HeadingHierarchy.collect, MarkdownComplexity.collect.
  rewrite H. split; reflexivity.
Qed.

(** X13. The hierarchy checker finds at most as many headings in a text
    as the complexity analyzer counts in it. *)
Theorem checker_headings_bounded_by_count :
  forall content,
    List.length (findall2 HeadingHierarchy.heading_re content)
    <= MarkdownComplexity.headings
         (MarkdownComplexity.analyze_content content).
Proof.
  intros content. unfold MarkdownComplexity.analyze_content.
  cbn [MarkdownComplexity.headings]. rewrite count_headings.
  unfold findall2, finditer. rewrite length_map.
  apply (hierarchy_scan_bound content None 0).
Qed.

(** X14. The score of a text without an opening bracket, a backtick and
    a list marker is the number of its lines that start with a hash,
    converted to a float without any rounding by the sum. *)
Theorem score_of_headings_only :
  forall content,
    ~ In 91%N content -> ~ In 96%N content ->
    ~ In 45%N content -> ~ In 42%N content -> ~ In 43%N content ->
    MarkdownComplexity.complexity
      (MarkdownComplexity.analyze_content content)
    = PyFloat.of_nat (count_hash_lines content).
Proof.
  intros content H1 H2 H3 H4 H5.
  unfold MarkdownComplexity.analyze_content.
  cbn [MarkdownComplexity.complexity].
  rewrite count_headings.
  rewrite (findall0_demands MarkdownComplexity.link_re (only 91)).
  - rewrite (findall0_demands MarkdownComplexity.fence_re (only 96)).
    + rewrite (findall0_demands MarkdownComplexity.list_re
                 MarkdownComplexity.marker).
      * apply score_headings_only.
      * exists (Plain (Chr MarkdownComplexity.marker)).
        split; [right; right; left; reflexivity|left; reflexivity].
      * apply Forall_forall. intros y Hy. unfold MarkdownComplexity.marker.
        destruct (N.eqb_spec y 45); [subst; contradiction|].
        destruct (N.eqb_spec y 42); [subst; contradiction|].
        destruct (N.eqb_spec y 43); [subst; contradiction|].
        reflexivity.
    + exists (Plain (Chr (only 96))).
      split; [left; reflexivity|left; reflexivity].
    + apply absent_only. exact H2.
  - exists (Plain (Chr (only 91))).
    split; [left; reflexivity|left; reflexivity].
  - apply absent_only. exact H1.
Qed.

(** The sample of four headings. *)
Lemma score_of_headings_only_witness :
  MarkdownComplexity.complexity
    (MarkdownComplexity.analyze_content Samples.levels_2441)
  = PyFloat.of_nat (count_hash_lines Samples.levels_2441).
Proof.
  apply (score_of_headings_only Samples.levels_2441);
    vm_compute; intuition discriminate.
Defined.

(** X15. Two listings checked together pass exactly when each of them
    passes alone, and the run over both ends with an uncaught exception
    exactly when the run over one of them does; this holds for both
    scripts. *)
Theorem listings_checked_together :
  forall docs1 docs2,
    ((exists out, HeadingHierarchy.main (docs1 ++ docs2) = Exit out 0) <->
     (exists out, HeadingHierarchy.main docs1 = Exit out 0) /\
     (exists out, HeadingHierarchy.main docs2 = Exit out 0)) /\
    ((exists out, MarkdownComplexity.main (docs1 ++ docs2) = Exit out 0) <->
     (exists out, MarkdownComplexity.main docs1 = Exit out 0) /\
     (exists out, MarkdownComplexity.main docs2 = Exit out 0)) /\
    (HeadingHierarchy.main (docs1 ++ docs2) = Uncaught <->
     HeadingHierarchy.main docs1 = Uncaught \/
     HeadingHierarchy.main docs2 = Uncaught) /\
    (MarkdownComplexity.main (docs1 ++ docs2) = Uncaught <->
     MarkdownComplexity.main docs1 = Uncaught \/
     MarkdownComplexity.main docs2 = Uncaught).
Proof.
  intros docs1 docs2. split; [|split; [|split]].
  - rewrite !hierarchy_pass. apply forall_selected_app.
  - rewrite !complexity_pass. apply forall_selected_app.
  - rewrite !hierarchy_uncaught. apply unreadable_app.
  - rewrite !complexity_uncaught. apply unreadable_app.
Qed.

(** The report of the complexity analyzer that calls [sys.exit(1)]: a
    header and then, for every selected file above the threshold and for
    nothing else, the line made of the path of the file and its score
    with one decimal. *)
Lemma complexity_report_lines :
  forall docs out,
    MarkdownComplexity.main docs = Exit out 1 ->
    exists lines,
      out = (MarkdownComplexity.cross
             ++ lit " High complexity files detected:") :: lines /\
      lines <> [] /\
      forall line,
        In line lines <->
        exists p content,
          In (p, Some content) (selected docs) /\
          MarkdownComplexity.is_high
            (MarkdownComplexity.analyze_content content) = true /\
          line = lit "  - " ++ p ++ lit ": complexity="
                 ++ format_1f (MarkdownComplexity.complexity
                                 (MarkdownComplexity.analyze_content content)).
Proof.
  intros docs out. unfold MarkdownComplexity.main.
  destruct (MarkdownComplexity.collect docs) as [r|] eqn:E; [|discriminate].
  apply complexity_collect in E. destruct E as (files & Hsel & ->).
  destruct (flat_map Spec.high_of files) as [|x l] eqn:Ef;
    unfold MarkdownComplexity.report; intros H; [discriminate|].
  assert (out = (MarkdownComplexity.cross
                 ++ lit " High complexity files detected:")
                :: map (fun item =>
                          lit "  - " ++ fst item ++ lit ": complexity="
                          ++ format_1f
                               (MarkdownComplexity.complexity (snd item)))
                       (x :: l)) as -> by congruence.
  clear H. eexists. split; [reflexivity|]. split; [discriminate|].
  intros line. rewrite <- Ef, in_map_iff. split.
  - intros ([p st] & <- & Hy). apply in_flat_map in Hy.
    destruct Hy as ([q c] & Hf & Hy). unfold Spec.high_of in Hy.
    cbn [fst snd] in Hy.
    destruct (MarkdownComplexity.is_high _) eqn:Eh; [|destruct Hy].
    destruct Hy as [Hy|[]]. inversion Hy; subst.
    exists p, c. rewrite Hsel, texts_of_inv. auto.
  - intros (p & c & Hp & Hh & ->).
    rewrite Hsel, texts_of_inv in Hp.
    exists (p, MarkdownComplexity.analyze_content c).
    split; [reflexivity|].
    apply in_flat_map. exists (p, c). split; [exact Hp|].
    unfold Spec.high_of. cbn [fst snd]. rewrite Hh. left. reflexivity.
Qed.

(* ===================================================================== *)
(** ** The exit status of every run *)
(* ===================================================================== *)

Module ProcessFacts.
Import Process.

Lemma reached_ok A S (body : S -> A -> result S) : forall l s r,
  for_each l body s = Ok r -> reached l body s = r.
Proof.
  induction l as [|x t IH]; intros s r H; simpl in *.
  - inversion H. reflexivity.
  - destruct (body s x) as [s'|]; simpl in H; [|discriminate].
    apply IH. exact H.
Qed.

Lemma hierarchy_at_end docs r :
  HeadingHierarchy.collect docs = Ok r -> all_issues_at_end docs = r.
Proof. apply reached_ok. Qed.

Lemma complexity_at_end docs r :
  MarkdownComplexity.collect docs = Ok r ->
  high_complexity_files_at_end docs = r.
Proof. apply reached_ok. Qed.

(** The exit status of the heading checker, by the way its loop ends. *)
Lemma hierarchy_status docs :
  match HeadingHierarchy.collect docs with
  | Ok [] => exit_status (HeadingHierarchy.main docs) = 0%Z
  | Ok (_ :: _) => exit_status (HeadingHierarchy.main docs) = 1%Z
  | Raise =>
      exit_status (HeadingHierarchy.main docs) = 1%Z /\
      stdout_of (HeadingHierarchy.main docs) = []
  end.
Proof.
  unfold HeadingHierarchy.main.
  destruct (HeadingHierarchy.collect docs) as [[|x l]|]; simpl; auto.
Qed.

Lemma complexity_status docs :
  match MarkdownComplexity.collect docs with
  | Ok [] => exit_status (MarkdownComplexity.main docs) = 0%Z
  | Ok (_ :: _) => exit_status (MarkdownComplexity.main docs) = 1%Z
  | Raise =>
      exit_status (MarkdownComplexity.main docs) = 1%Z /\
      stdout_of (MarkdownComplexity.main docs) = []
  end.
Proof.
  unfold MarkdownComplexity.main.
  destruct (MarkdownComplexity.collect docs) as [[|x l]|]; simpl; auto.
Qed.

Lemma readable_no_none (l : list (str * option str)) :
  Forall (fun f => snd f <> None) l -> ~ exists p, In (p, None) l.
Proof.
  intros H (p & Hp). rewrite Forall_forall in H.
  apply (H _ Hp). reflexivity.
Qed.

(** The exit status of a run of the heading checker and [all_issues]. *)
Lemma hierarchy_exit docs :
  (exit_status (HeadingHierarchy.main docs) = 0%Z \/
   exit_status (HeadingHierarchy.main docs) = 1%Z) /\
  (exit_status (HeadingHierarchy.main docs) = 0%Z ->
   all_issues_at_end docs = []) /\
  (all_issues_at_end docs <> [] ->
   exit_status (HeadingHierarchy.main docs) = 1%Z) /\
  (Forall (fun f => snd f <> None) (selected docs) ->
   (exit_status (HeadingHierarchy.main docs) = 0%Z <->
    all_issues_at_end docs = [])) /\
  ((exists p, In (p, None) (selected docs)) ->
   exit_status (HeadingHierarchy.main docs) = 1%Z /\
   stdout_of (HeadingHierarchy.main docs) = []).
Proof.
  pose proof (hierarchy_status docs) as Hs.
  pose proof (hierarchy_at_end docs) as He.
  pose proof (hierarchy_raise docs) as Hr.
  destruct (HeadingHierarchy.collect docs) as [[|x l]|].
  - rewrite (He [] eq_refl). rewrite Hs.
    split; [left; reflexivity|].
    split; [reflexivity|].
    split; [intros H; contradiction|].
    split; [intros _; split; reflexivity|].
    intros Hn. apply Hr in Hn. discriminate.
  - rewrite (He (x :: l) eq_refl). rewrite Hs.
    split; [right; reflexivity|].
    split; [discriminate|].
    split; [reflexivity|].
    split; [intros _; split; discriminate|].
    intros Hn. apply Hr in Hn. discriminate.
  - destruct Hs as (Hs1 & Hs2). rewrite Hs1.
    split; [right; reflexivity|].
    split; [discriminate|].
    split; [intros _; reflexivity|].
    split; [|auto].
    intros Hread. exfalso. apply (readable_no_none _ Hread).
    apply Hr. reflexivity.
Qed.

Lemma complexity_exit docs :
  (exit_status (MarkdownComplexity.main docs) = 0%Z \/
   exit_status (MarkdownComplexity.main docs) = 1%Z) /\
  (exit_status (MarkdownComplexity.main docs) = 0%Z ->
   high_complexity_files_at_end docs = []) /\
  (high_complexity_files_at_end docs <> [] ->
   exit_status (MarkdownComplexity.main docs) = 1%Z) /\
  (Forall (fun f => snd f <> None) (selected docs) ->
   (exit_status (MarkdownComplexity.main docs) = 0%Z <->
    high_complexity_files_at_end docs = [])) /\
  ((exists p, In (p, None) (selected docs)) ->
   exit_status (MarkdownComplexity.main docs) = 1%Z /\
   stdout_of (MarkdownComplexity.main docs) = []).
Proof.
  pose proof (complexity_status docs) as Hs.
  pose proof (complexity_at_end docs) as He.
  pose proof (complexity_raise docs) as Hr.
  destruct (MarkdownComplexity.collect docs) as [[|x l]|].
  - rewrite (He [] eq_refl). rewrite Hs.
    split; [left; reflexivity|].
    split; [reflexivity|].
    split; [intros H; contradiction|].
    split; [intros _; split; reflexivity|].
    intros Hn. apply Hr in Hn. discriminate.
  - rewrite (He (x :: l) eq_refl). rewrite Hs.
    split; [right; reflexivity|].
    split; [discriminate|].
    split; [reflexivity|].
    split; [intros _; split; discriminate|].
    intros Hn. apply Hr in Hn. discriminate.
  - destruct Hs as (Hs1 & Hs2). rewrite Hs1.
    split; [right; reflexivity|].
    split; [discriminate|].
    split; [intros _; reflexivity|].
    split; [|auto].
    intros Hread. exfalso. apply (readable_no_none _ Hread).
    apply Hr. reflexivity.
Qed.

End ProcessFacts.

Import Process ProcessFacts.

(** C4, as stated. A run over a tree whose only markdown file cannot be
    read finds no issue and flags no file, and yet exits with status 1:
    the exit code is not 0 although the aggregated result is empty. *)
Lemma exit_code_nonzero_without_finding :
  (all_issues_at_end unreadable_tree = [] /\
   exit_status (HeadingHierarchy.main unreadable_tree) = 1%Z /\
   ~ (exit_status (HeadingHierarchy.main unreadable_tree) = 0%Z <->
      all_issues_at_end unreadable_tree = [])) /\
  (high_complexity_files_at_end unreadable_tree = [] /\
   exit_status (MarkdownComplexity.main unreadable_tree) = 1%Z /\
   ~ (exit_status (MarkdownComplexity.main unreadable_tree) = 0%Z <->
      high_complexity_files_at_end unreadable_tree = [])).
Proof.
  split; (split; [reflexivity|]; split; [reflexivity|]);
    intros (_ & H); specialize (H eq_refl); discriminate.
Qed.

(** C4, amended. The exit status of every run of either script is 0 or 1;
    it is 0 only when the aggregated result is empty, and 1 whenever the
    result holds an issue or a flagged file. When every selected file can
    be read, it is 0 exactly when the result is empty. A run that cannot
    read a selected file exits with status 1 and prints nothing, whatever
    it had found. *)
Theorem exit_code_of_every_run :
  forall docs,
    ((exit_status (HeadingHierarchy.main docs) = 0%Z \/
      exit_status (HeadingHierarchy.main docs) = 1%Z) /\
     (exit_status (HeadingHierarchy.main docs) = 0%Z ->
      all_issues_at_end docs = []) /\
     (all_issues_at_end docs <> [] ->
      exit_status (HeadingHierarchy.main docs) = 1%Z) /\
     (Forall (fun f => snd f <> None) (selected docs) ->
      (exit_status (HeadingHierarchy.main docs) = 0%Z <->
       all_issues_at_end docs = [])) /\
     ((exists p, In (p, None) (selected docs)) ->
      exit_status (HeadingHierarchy.main docs) = 1%Z /\
      stdout_of (HeadingHierarchy.main docs) = [])) /\
    ((exit_status (MarkdownComplexity.main docs) = 0%Z \/
      exit_status (MarkdownComplexity.main docs) = 1%Z) /\
     (exit_status (MarkdownComplexity.main docs) = 0%Z ->
      high_complexity_files_at_end docs = []) /\
     (high_complexity_files_at_end docs <> [] ->
      exit_status (MarkdownComplexity.main docs) = 1%Z) /\
     (Forall (fun f => snd f <> None) (selected docs) ->
      (exit_status (MarkdownComplexity.main docs) = 0%Z <->
       high_complexity_files_at_end docs = [])) /\
     ((exists p, In (p, None) (selected docs)) ->
      exit_status (MarkdownComplexity.main docs) = 1%Z /\
      stdout_of (MarkdownComplexity.main docs) = [])).
Proof.
  intros docs. split; [apply hierarchy_exit|apply complexity_exit].
Qed.

(** On the sample tree every selected file can be read; on a tree with an
    unreadable markdown file next to one with a level jump the run ends
    with status 1 and an empty output. *)
Lemma exit_code_of_every_run_witness :
  (exit_status (HeadingHierarchy.main Samples.tree) = 0%Z <->
   all_issues_at_end Samples.tree = []) /\
  (exit_status
     (HeadingHierarchy.main
        [File (lit "index.md") (Some Samples.levels_2441);
         File (lit "bad.md") None]) = 1%Z /\
   stdout_of
     (HeadingHierarchy.main
        [File (lit "index.md") (Some Samples.levels_2441);
         File (lit "bad.md") None]) = []).
Proof.
  split.
  - apply (proj1 (exit_code_of_every_run Samples.tree)).
    vm_compute. repeat constructor; discriminate.
  - apply (proj1 (exit_code_of_every_run
                    [File (lit "index.md") (Some Samples.levels_2441);
                     File (lit "bad.md") None])).
    exists (lit "docs/bad.md"). vm_compute. auto.
Defined.

(** X5. When the heading checker ends with exit status 1, either a
    selected file could not be read and nothing was printed, or it
    printed a header and then, for every issue of every selected file and
    for nothing else, the line made of the path of the file and the
    issue. *)
Theorem hierarchy_failure_report :
  forall docs,
    exit_status (HeadingHierarchy.main docs) = 1%Z ->
    (stdout_of (HeadingHierarchy.main docs) = [] /\
     exists p, In (p, None) (selected docs)) \/
    (exists lines,
       stdout_of (HeadingHierarchy.main docs)
       = (HeadingHierarchy.cross ++ lit " Heading hierarchy issues found:")
         :: lines /\
       lines <> [] /\
       forall line,
         In line lines <->
         exists p content issue,
           In (p, Some content) (selected docs) /\
           In issue (HeadingHierarchy.check_content content) /\
           line = lit "  - " ++ p ++ lit ": " ++ issue).
Proof.
  intros docs H.
  destruct (HeadingHierarchy.main docs) as [out code|] eqn:E.
  - simpl in H. subst code. right. simpl stdout_of.
    apply (hierarchy_report_lines docs out E).
  - left. split; [reflexivity|]. apply hierarchy_uncaught. exact E.
Qed.

(** A tree that holds the sample with levels 2, 4, 4, 1, and a tree whose
    only file cannot be read. *)
Lemma hierarchy_failure_report_witness :
  ((stdout_of
      (HeadingHierarchy.main
         [File (lit "index.md") (Some Samples.levels_2441)]) = [] /\
    exists p,
      In (p, None)
         (selected [File (lit "index.md") (Some Samples.levels_2441)])) \/
   (exists lines,
      stdout_of
        (HeadingHierarchy.main
           [File (lit "index.md") (Some Samples.levels_2441)])
      = (HeadingHierarchy.cross ++ lit " Heading hierarchy issues found:")
        :: lines /\
      lines <> [] /\
      forall line,
        In line lines <->
        exists p content issue,
          In (p, Some content)
             (selected [File (lit "index.md") (Some Samples.levels_2441)]) /\
          In issue (HeadingHierarchy.check_content content) /\
          line = lit "  - " ++ p ++ lit ": " ++ issue)) /\
  ((stdout_of (HeadingHierarchy.main unreadable_tree) = [] /\
    exists p, In (p, None) (selected unreadable_tree)) \/
   (exists lines,
      stdout_of (HeadingHierarchy.main unreadable_tree)
      = (HeadingHierarchy.cross ++ lit " Heading hierarchy issues found:")
        :: lines /\
      lines <> [] /\
      forall line,
        In line lines <->
        exists p content issue,
          In (p, Some content) (selected unreadable_tree) /\
          In issue (HeadingHierarchy.check_content content) /\
          line = lit "  - " ++ p ++ lit ": " ++ issue)).
Proof.
  split.
  - apply (hierarchy_failure_report
             [File (lit "index.md") (Some Samples.levels_2441)]).
    vm_compute. reflexivity.
  - apply (hierarchy_failure_report unreadable_tree).
    vm_compute. reflexivity.
Defined.

(** X16. When the complexity analyzer ends with exit status 1, either a
    selected file could not be read and nothing was printed, or it
    printed a header and then, for every selected file above the
    threshold and for nothing else, the line made of the path of the file
    and its score with one decimal. *)
Theorem complexity_failure_report :
  forall docs,
    exit_status (MarkdownComplexity.main docs) = 1%Z ->
    (stdout_of (MarkdownComplexity.main docs) = [] /\
     exists p, In (p, None) (selected docs)) \/
    (exists lines,
       stdout_of (MarkdownComplexity.main docs)
       = (MarkdownComplexity.cross
          ++ lit " High complexity files detected:") :: lines /\
       lines <> [] /\
       forall line,
         In line lines <->
         exists p content,
           In (p, Some content) (selected docs) /\
           MarkdownComplexity.is_high
             (MarkdownComplexity.analyze_content content) = true /\
           line = lit "  - " ++ p ++ lit ": complexity="
                  ++ format_1f
                       (MarkdownComplexity.complexity
                          (MarkdownComplexity.analyze_content content))).
Proof.
  intros docs H.
  destruct (MarkdownComplexity.main docs) as [out code|] eqn:E.
  - simpl in H. subst code. right. simpl stdout_of.
    apply (complexity_report_lines docs out E).
  - left. split; [reflexivity|]. apply complexity_uncaught. exact E.
Qed.

(** A tree that holds the sample of sixty headings. *)
Lemma complexity_failure_report_witness :
  (stdout_of
     (MarkdownComplexity.main
        [File (lit "big.md") (Some (Samples.heading_lines 60))]) = [] /\
   exists p,
     In (p, None)
        (selected [File (lit "big.md") (Some (Samples.heading_lines 60))])) \/
  (exists lines,
     stdout_of
       (MarkdownComplexity.main
          [File (lit "big.md") (Some (Samples.heading_lines 60))])
     = (MarkdownComplexity.cross
        ++ lit " High complexity files detected:") :: lines /\
     lines <> [] /\
     forall line,
       In line lines <->
       exists p content,
         In (p, Some content)
            (selected
               [File (lit "big.md") (Some (Samples.heading_lines 60))]) /\
         MarkdownComplexity.is_high
           (MarkdownComplexity.analyze_content content) = true /\
         line = lit "  - " ++ p ++ lit ": complexity="
                ++ format_1f
                     (MarkdownComplexity.complexity
                        (MarkdownComplexity.analyze_content content))).
Proof.
  apply (complexity_failure_report
           [File (lit "big.md") (Some (Samples.heading_lines 60))]).
  vm_compute. reflexivity.
Defined.
